(** * go-cryptocom: the signed-request protocol of the exchange client

    A shallow embedding of the client library: the response classifier
    ([api.Requester.CheckErrorResponse]), the request envelope and its JSON
    form ([api.Request]), the transport wrapper ([api.Requester.doRequest]) and
    the endpoint operations of package [cdcexchange].  Go packages become
    modules, Go structs become records, the [error] interface becomes an
    inductive type with a [nil] constructor, and the effects of an endpoint
    call (id generation, clock reads, signing, the HTTP exchange) are threaded
    through an explicit [World]. *)

From Stdlib Require Import ZArith String Ascii List Floats.
From stdpp Require Import base option list gmap strings pretty sorting.

Set Warnings "-register-all".

Open Scope string_scope.
Open Scope Z_scope.

(** ** Package [errors] *)

Module errors.

(** Values of Go's [error] interface that the client produces or passes on.
    [New] stands for a package-level sentinel made by [errors.New] (compared
    by identity, which the text identifies), [Errorf] for [fmt.Errorf]
    without the wrapping verb, [Wrapf] for [fmt.Errorf("<prefix>%w", err)]. *)
Inductive error : Type :=
| nil
| New (text : string)
| Errorf (text : string)
| Wrapf (prefix : string) (err : error)
| InvalidParameterError (Parameter_ Reason : string)
| ResponseError (Code : Z) (HTTPStatusCode : Z) (Err : error).

#[export] Instance error_eq_dec : EqDecision error.
Proof. solve_decision. Defined.

(** Go functions returning [(A, error)]: either a value or a non-nil error. *)
Inductive result (A : Type) : Type :=
| Ok (a : A)
| Error (err : error).
Arguments Ok {A} a.
Arguments Error {A} err.

(** [Unwrap] of the two wrapping error types; [nil] for the others. *)
Definition Unwrap (err : error) : error :=
  match err with
  | Wrapf _ e => e
  | ResponseError _ _ e => e
  | _ => nil
  end.

(** The loop of [errors.Is]: compare, then follow [Unwrap] until [nil]. *)
Fixpoint is_chain (err target : error) : bool :=
  bool_decide (err = target) ||
  match err with
  | Wrapf _ e | ResponseError _ _ e =>
      match e with
      | nil => false
      | _ => is_chain e target
      end
  | _ => false
  end.

Definition Is (err target : error) : bool :=
  match err, target with
  | nil, _ | _, nil => bool_decide (err = target)
  | _, _ => is_chain err target
  end.

(** [errors.As] into a [ResponseError]: the first one on the chain. *)
Fixpoint AsResponseError (err : error) : option (Z * Z * error) :=
  match err with
  | ResponseError code status e => Some (code, status, e)
  | Wrapf _ e => AsResponseError e
  | _ => None
  end.

(** The sentinel the tests compare against for code 10003. *)
Definition ErrIllegalIP : error := New "ILLEGAL_IP".

(** The fixed table from numeric response codes to sentinels; [nil] for a
    code the table does not know. *)
Class CodeTable := errorKind : Z → error.

(** Modelled from the spec: [errors.NewResponseError] is not among the
    sources.  The spec has it map the code through the fixed table and
    keep the raw numeric code and the HTTP status on the error value; the
    test of GetTickers expects [ResponseError{Code, HTTPStatusCode, Err}]. *)
Definition NewResponseError `{CodeTable} (statusCode code : Z) : error :=
  ResponseError code statusCode (errorKind code).

End errors.

Export errors.

(** ** [strconv.ParseInt] at base 10 and bit size 64, as [json.Number.Int64] calls it *)

Module strconv.

Definition digit (c : ascii) : option Z :=
  let n := Z.of_nat (nat_of_ascii c) in
  if (48 <=? n) && (n <=? 57) then Some (n - 48) else None.

Fixpoint digits (acc : Z) (s : string) : option Z :=
  match s with
  | EmptyString => Some acc
  | String c s' =>
      match digit c with
      | Some d => digits (acc * 10 + d) s'
      | None => None
      end
  end.

(** An optional sign, at least one decimal digit, nothing else, and the
    value within the range of int64. *)
Definition ParseInt (s : string) : option Z :=
  match s with
  | EmptyString => None
  | String c rest =>
      let neg := bool_decide (c = "-"%char) in
      let body := if bool_decide (c = "+"%char) || neg then rest else s in
      match body with
      | EmptyString => None
      | _ =>
          match digits 0 body with
          | None => None
          | Some un =>
              if neg then (if un <=? 2 ^ 63 then Some (- un) else None)
              else (if un <? 2 ^ 63 then Some un else None)
          end
      end
  end.

End strconv.

(** ** Package [encoding/json]: numbers kept as text *)

Module json.

(** [json.Number] is a string holding the literal. *)
Definition Number := string.

Definition Int64 (n : Number) : option Z := strconv.ParseInt n.

End json.

(** ** Go's [int64] arithmetic *)

Module int64.

(** The value an [int64] holds after an operation whose exact result is [z]. *)
Definition wrap (z : Z) : Z := (z + 2 ^ 63) mod 2 ^ 64 - 2 ^ 63.

End int64.

(** ** Package [time]: the two methods the endpoints call *)

Module time.

(** An instant: seconds since January 1 of year 1, UTC, and the nanoseconds
    within that second (the accessors [sec()] and [nsec()] of [time.Time]). *)
Record Time : Type := { sec : Z; nsec : Z }.

Definition unixToInternal : Z := (1969 * 365 + 1969 / 4 - 1969 / 100 + 1969 / 400) * 86400.
Definition internalToUnix : Z := - unixToInternal.

Definition IsZero (t : Time) : bool := (sec t =? 0) && (nsec t =? 0).

Definition unixSec (t : Time) : Z := int64.wrap (sec t + internalToUnix).

Definition UnixMilli (t : Time) : Z :=
  int64.wrap (int64.wrap (unixSec t * 1000) + Z.quot (nsec t) 1000000).

End time.

(** ** Dynamic values: what a [map[string]interface{}] of parameters holds *)

(** The dynamic types the endpoints store in a parameter map. *)
Inductive value : Type :=
| VString (s : string)
| VInt (n : Z)
| VInt64 (n : Z)
| VFloat64 (f : float).

(** A Go map of parameters: [None] is the nil map (the zero value of the
    field), [Some m] a map made by [make]. *)
Abbreviation params := (option (gmap string value)).

(** Bytewise ascending order on keys, as [sort.Strings] and the JSON encoder
    order them. *)
Definition key_le {A : Type} (a b : string * A) : Prop := String.leb a.1 b.1.

#[export] Instance key_le_dec {A : Type} (a b : string * A) : Decision (key_le a b).
Proof. unfold key_le. apply _. Defined.

Definition sort_keys {A : Type} (l : list (string * A)) : list (string * A) :=
  merge_sort key_le l.

(** ** Package [unicode/utf8] *)

Module utf8.

Definition byteOf (c : ascii) : Z := Z.of_N (N_of_ascii c).

Definition within (lo hi : Z) (c : ascii) : bool :=
  (lo <=? byteOf c) && (byteOf c <=? hi).

(** The encoding of U+FFFD, the rune [RuneError]: EF BF BD. *)
Definition RuneError : string :=
  String "239"%char (String "191"%char (String "189"%char "")).

(** [DecodeRuneInString], by its width: [Some n] for a rune encoded in the
    first [n] bytes of [s], [None] where Go returns [(RuneError, 1)] for a
    byte that starts no valid encoding.  The first byte gives the width and
    the range of the second byte (the tables [first] and [acceptRanges]); the
    others are continuation bytes 80..BF.  The empty string is never asked
    for. *)
Definition DecodeRuneInString (s : string) : option nat :=
  match s with
  | "" => None
  | String s0 rest =>
      let b := byteOf s0 in
      if b <? 128 then Some 1%nat
      else if (b <? 194) || (244 <? b) then None
      else
        let sz := if b <? 224 then 2 else if b <? 240 then 3 else 4 in
        let lo := if b =? 224 then 160 else if b =? 240 then 144 else 128 in
        let hi := if b =? 237 then 159 else if b =? 244 then 143 else 191 in
        match rest with
        | "" => None
        | String s1 rest1 =>
            if negb (within lo hi s1) then None
            else if sz <=? 2 then Some 2%nat
            else
              match rest1 with
              | "" => None
              | String s2 rest2 =>
                  if negb (within 128 191 s2) then None
                  else if sz <=? 3 then Some 3%nat
                  else
                    match rest2 with
                    | "" => None
                    | String s3 _ =>
                        if negb (within 128 191 s3) then None else Some 4%nat
                    end
              end
        end
  end.

End utf8.

(** ** JSON documents, as [json.Marshal] produces them *)

Module jsonenc.

Inductive Value : Type :=
| Null
| Str (s : string)
| Num (n : Z)
| Float (f : float)
| Object (fields : list (string * Value)).

(** The loop of the encoder over a Go string, with [pending] bytes of the
    current rune still to copy: a rune that decodes is copied, a byte that
    starts none is written as U+FFFD and the loop moves on by one byte. *)
Fixpoint written (pending : nat) (s : string) : string :=
  match s with
  | "" => ""
  | String c rest =>
      match pending with
      | S n => String c (written n rest)
      | O =>
          match utf8.DecodeRuneInString s with
          | Some (S n) => String c (written n rest)
          | _ => utf8.RuneError ++ written 0 rest
          end
      end
  end.

(** The string a JSON string written for [s] stands for: [s] itself when it
    is valid UTF-8, and otherwise [s] with every invalid byte replaced by
    U+FFFD.  (Escapes change the text written, not the string it stands
    for.) *)
Definition coerce (s : string) : string := written 0 s.

#[global] Arguments coerce : simpl never.

(** A dynamic value; NaN and the infinities are unsupported values. *)
Definition marshalValue (v : value) : result Value :=
  match v with
  | VString s => Ok (Str (coerce s))
  | VInt n | VInt64 n => Ok (Num n)
  | VFloat64 f =>
      if is_nan f || is_infinity f
      then Error (Errorf "json: unsupported value")
      else Ok (Float f)
  end.

(** The members of an object, in the order given.  The keys of this package
    are ASCII constants, so a member's name is its key. *)
Fixpoint marshalFields (l : list (string * value)) : result (list (string * Value)) :=
  match l with
  | [] => Ok []
  | (k, v) :: l' =>
      match marshalValue v with
      | Error e => Error e
      | Ok j =>
          match marshalFields l' with
          | Error e => Error e
          | Ok js => Ok ((k, j) :: js)
          end
      end
  end.

(** A map is written as an object with its keys in ascending order, the nil
    map as [null]. *)
Definition marshalMap (m : params) : result Value :=
  match m with
  | None => Ok Null
  | Some m =>
      match marshalFields (sort_keys (map_to_list m)) with
      | Error e => Error e
      | Ok fields => Ok (Object fields)
      end
  end.

(** The member names of an object, in order. *)
Definition members (j : Value) : list string :=
  match j with
  | Object fields => fields.*1
  | _ => []
  end.

Definition member (name : string) (j : Value) : option Value :=
  match j with
  | Object fields => snd <$> List.find (λ kv, bool_decide (kv.1 = name)) fields
  | _ => None
  end.

End jsonenc.

(** ** Package [internal/auth] *)

Module auth.

Record SignatureRequest : Type := {
  APIKey : string;
  SecretKey : string;
  ID : Z;
  Method : string;
  Timestamp : Z;
  Params : params
}.

(** The interface [SignatureGenerator]: one method, returning the signature
    or an error. *)
Definition SignatureGenerator : Type := SignatureRequest → result string.

(** Modelled from the spec: the parameter canonicalizer and the signing
    payload live in package internal/auth, which is not among the sources.
    The spec gives the parameter structure as a tagged variant of string,
    number, bool, null, array and nested mapping; numbers are the integers
    here. *)
Inductive Param : Type :=
| PString (s : string)
| PNumber (n : Z)
| PBool (b : bool)
| PNull
| PArray (elems : list Param)
| PMapping (entries : list (string * Param)).

(** Key followed by the value's text, no separator; an entry whose value is
    null is left out. *)
Definition entry_text (kv : string * option string) : string :=
  match kv.2 with
  | Some t => kv.1 ++ t
  | None => ""
  end.

Definition join (l : list string) : string := foldr String.append "" l.

(** Modelled from the spec: the textual form of a value, [None] for null.
    Arrays keep their order, mappings are sorted by key at every level. *)
Fixpoint text (v : Param) : option string :=
  match v with
  | PString s => Some s
  | PNumber n => Some (pretty n)
  | PBool b => Some (if b then "true" else "false")
  | PNull => None
  | PArray elems => Some (join (map (λ x, default "" (text x)) elems))
  | PMapping entries =>
      Some (join (map entry_text
                    (sort_keys (map (λ kv, (kv.1, text kv.2)) entries))))
  end.

(** Modelled from the spec: [canonicalize(params) -> string]. *)
Definition canonicalize (entries : list (string * Param)) : string :=
  join (map entry_text (sort_keys (map (λ kv, (kv.1, text kv.2)) entries))).

(** Modelled from the spec: the input of the keyed hash,
    [method ++ id ++ apiKey ++ canonicalParams ++ nonce]. *)
Definition sigPayload (method : string) (id : Z) (apiKey : string)
    (entries : list (string * Param)) (nonce : Z) : string :=
  method ++ pretty id ++ apiKey ++ canonicalize entries ++ pretty nonce.

(** The parameter structure of a map built by an endpoint; a float has no
    integer text and is not translated. *)
Definition ofValue (v : value) : option Param :=
  match v with
  | VString s => Some (PString s)
  | VInt n | VInt64 n => Some (PNumber n)
  | VFloat64 _ => None
  end.

Definition ofParams (m : gmap string value) : option (list (string * Param)) :=
  mapM (λ kv, p ← ofValue kv.2; Some (kv.1, p)) (map_to_list m).

End auth.

(** ** Package [net/http]: requests, responses and the client as the code uses them *)

Module http.

Definition MethodGet : string := "GET".
Definition MethodPost : string := "POST".

(** [url.Values]: each key with its values in the order they were added. *)
Abbreviation Values := (gmap string (list string)).

Definition Add (key val : string) (v : Values) : Values :=
  <[key := (default [] (v !! key) ++ [val])%list]> v.

Definition Get (key : string) (v : Values) : string :=
  default "" (head (default [] (v !! key))).

Definition Has (key : string) (v : Values) : bool := bool_decide (is_Some (v !! key)).

(** An outgoing request: the URL as formatted by the caller, the query
    values of that URL (what [URL.Query()] reads and [URL.RawQuery] is set
    from), the Content-Type header and the body ([None] for a nil body). *)
Record Request : Type := {
  Method : string;
  URL : string;
  Query : Values;
  ContentType : string;
  Body : option jsonenc.Value
}.

(** What comes back: the status code and the outcome of reading the body. *)
Record Response : Type := {
  StatusCode : Z;
  ReadAll : result string
}.

(** [url.Parse] on the formatted URL: a parse error, or the query values the
    URL already carries. *)
Class URLParser := url_Parse : string → result Values.

Definition NewRequestWithContext `{URLParser} (method url : string)
    (body : option jsonenc.Value) : result Request :=
  match url_Parse url with
  | Error e => Error e
  | Ok q => Ok {| Method := method; URL := url; Query := q;
                  ContentType := ""; Body := body |}
  end.

Definition SetContentType (ct : string) (r : Request) : Request :=
  {| Method := Method r; URL := URL r; Query := Query r;
     ContentType := ct; Body := Body r |}.

Definition SetQuery (q : Values) (r : Request) : Request :=
  {| Method := Method r; URL := URL r; Query := q;
     ContentType := ContentType r; Body := Body r |}.

(** An [*http.Client]: the answer to a request, which may depend on the
    requests sent before it. *)
Definition Client : Type := list Request → Request → result Response.

End http.

(** [json.Unmarshal] into a value of type [R]: owned by each endpoint's
    response type. *)
Class Unmarshal (R : Type) := unmarshal : string → result R.

(** ** The effects of a call *)

(** What a call has done so far: how often the id generator and the clock were
    asked, the requests handed to the signature generator, and the requests
    handed to the HTTP client, oldest first. *)
Record World : Type := {
  idCalls : nat;
  clockReads : nat;
  signed : list auth.SignatureRequest;
  sent : list http.Request
}.

Definition M (A : Type) : Type := World → result A * World.

#[export] Instance M_ret : MRet M := λ A a w, (Ok a, w).

#[export] Instance M_bind : MBind M := λ A B f m w,
  match m w with
  | (Ok a, w') => f a w'
  | (Error e, w') => (Error e, w')
  end.

(** Return the error [e]. *)
Definition fail {A : Type} (e : error) : M A := λ w, (Error e, w).

(** A pure step that may fail. *)
Definition lift {A : Type} (r : result A) : M A := λ w, (r, w).

(** [if err != nil { return fmt.Errorf("<prefix>%w", err) }] around a step. *)
Definition wrapping {A : Type} (prefix : string) (m : M A) : M A := λ w,
  match m w with
  | (Ok a, w') => (Ok a, w')
  | (Error e, w') => (Error (Wrapf prefix e), w')
  end.

(** [idGenerator.Generate()]: the generator's next id. *)
Definition Generate (g : nat → Z) : M Z := λ w,
  (Ok (g (idCalls w)),
   {| idCalls := S (idCalls w); clockReads := clockReads w;
      signed := signed w; sent := sent w |}).

(** [clock.Now()]. *)
Definition Now (clock : nat → time.Time) : M time.Time := λ w,
  (Ok (clock (clockReads w)),
   {| idCalls := idCalls w; clockReads := S (clockReads w);
      signed := signed w; sent := sent w |}).

(** [signatureGenerator.GenerateSignature(req)]. *)
Definition GenerateSignature (g : auth.SignatureGenerator)
    (req : auth.SignatureRequest) : M string := λ w,
  (g req,
   {| idCalls := idCalls w; clockReads := clockReads w;
      signed := (signed w ++ [req])%list; sent := sent w |}).

(** [client.Do(req)]: the network call. *)
Definition Do (c : http.Client) (req : http.Request) : M http.Response := λ w,
  (c (sent w) req,
   {| idCalls := idCalls w; clockReads := clockReads w;
      signed := signed w; sent := (sent w ++ [req])%list |}).

(** ** Package [internal/api] *)

Module api.

Definition V1 : string := "exchange/v1/".
Definition V2 : string := "v2/".

Record Request : Type := {
  ID : Z;
  Method : string;
  Nonce : Z;
  Params : params;
  Signature : string;
  APIKey : string;
  Version : string
}.

(** The response fields every endpoint shares; the classifier reads [Code]. *)
Record BaseResponse : Type := {
  RespID : json.Number;
  RespMethod : string;
  Code : json.Number
}.

(** A field tagged [omitempty]: left out when its string is empty. *)
Definition omitempty (name s : string) : list (string * jsonenc.Value) :=
  if bool_decide (s = "") then [] else [(name, jsonenc.Str (jsonenc.coerce s))].

(** [json.Marshal] of a [Request], following its field tags. *)
Definition Marshal (r : Request) : result jsonenc.Value :=
  match jsonenc.marshalMap (Params r) with
  | Error e => Error e
  | Ok p =>
      Ok (jsonenc.Object
            ([("id", jsonenc.Num (ID r));
              ("method", jsonenc.Str (jsonenc.coerce (Method r)));
              ("nonce", jsonenc.Num (Nonce r));
              ("params", p)]
             ++ omitempty "sig" (Signature r)
             ++ omitempty "api_key" (APIKey r)
             ++ [("version", jsonenc.Str (jsonenc.coerce (Version r)))])%list)
  end.

Record Requester : Type := {
  Client : http.Client;
  BaseURL : string
}.

Section Requester.
Context `{!CodeTable, !http.URLParser}.

Definition doRequest {R : Type} `{!Unmarshal R} (r : Requester)
    (httpMethod : string) (body : Request) (method : string) : M (Z * R) :=
  b ← wrapping "failed to marshal request body: " (lift (Marshal body));
  let version := if bool_decide (Version body = "") then V1 else Version body in
  req ← wrapping "failed to create request: "
          (lift (http.NewRequestWithContext httpMethod
                   (BaseURL r ++ version ++ method) (Some b)));
  let req := http.SetContentType "application/json" req in
  res ← wrapping "failed to do request: " (Do (Client r) req);
  resBytes ← wrapping "failed to read response body: " (lift (http.ReadAll res));
  response ← wrapping ("failed to unmarshal response body: " ++ resBytes ++ ", error: ")
               (lift (unmarshal resBytes));
  mret (http.StatusCode res, response).

Definition Post {R : Type} `{!Unmarshal R} (r : Requester) (body : Request)
    (method : string) : M (Z * R) :=
  doRequest r http.MethodPost body method.

Definition Get {R : Type} `{!Unmarshal R} (r : Requester) (body : Request)
    (method : string) : M (Z * R) :=
  doRequest r http.MethodGet body method.

Definition CheckErrorResponse (statusCode : Z) (responseCode : json.Number) : error :=
  if 400 <=? statusCode then
    match json.Int64 responseCode with
    | None =>
        ResponseError 0 statusCode
          (Errorf ("invalid response code: " ++ responseCode))
    | Some code => NewResponseError statusCode code
    end
  else nil.

End Requester.

End api.

(** ** Package [cdcexchange], one module per source file *)

Module client.

Definition uatSandboxBaseURL : string := "https://uat-api.3ona.co/v2/".
Definition productionBaseURL : string := "https://api.crypto.com/v2/".

(** The collaborators are interface values held in the struct: the clock
    answers its n-th read, the id generator its n-th call. *)
Record Client : Type := {
  apiKey : string;
  secretKey : string;
  clock : nat → time.Time;
  idGenerator : nat → Z;
  signatureGenerator : auth.SignatureGenerator;
  requester : api.Requester
}.

(** An endpoint's response struct: the embedded [api.BaseResponse] and the
    part of [Result] the endpoint hands back. *)
Record Response (R : Type) : Type := {
  Base : api.BaseResponse;
  Result : R
}.
Arguments Base {R} _.
Arguments Result {R} _.

End client.

Import client.

Module getinstruments.
Section GetInstruments.
Context `{!CodeTable, !http.URLParser}.
Context {Instrument : Type} `{!Unmarshal (Response (list Instrument))}.

Definition methodGetInstruments : string := "public/get-instruments".

Definition GetInstruments (c : Client) : M (list Instrument) :=
  id ← Generate (idGenerator c);
  now ← Now (clock c);
  let body := {| api.ID := id; api.Method := methodGetInstruments;
                 api.Nonce := time.UnixMilli now; api.Params := None;
                 api.Signature := ""; api.APIKey := ""; api.Version := "" |} in
  '(statusCode, instrumentsResponse) ←
    wrapping "failed to execute post request: "
      (api.Get (requester c) body methodGetInstruments);
  match api.CheckErrorResponse statusCode (api.Code (Base instrumentsResponse)) with
  | nil => mret (Result instrumentsResponse)
  | err => fail (Wrapf "error received in response: " err)
  end.

End GetInstruments.
End getinstruments.

Module getbook.
Section GetBook.
Context `{!CodeTable, !http.URLParser}.
Context {BookResult : Type} `{!Unmarshal (Response BookResult)}.

Definition methodGetBook : string := "public/get-book".

Definition GetBook (c : Client) (instrument : string) (depth : Z) : M BookResult :=
  req ← wrapping "failed to create request: "
          (lift (http.NewRequestWithContext http.MethodGet
                   (api.BaseURL (requester c) ++ api.V2 ++ methodGetBook) None));
  let req := http.SetContentType "application/json" req in
  let q := http.Add "instrument_name" instrument (http.Query req) in
  let q := if 0 <? depth then http.Add "depth" (pretty depth) q else q in
  let req := http.SetQuery q req in
  res ← wrapping "failed to do request: " (Do (api.Client (requester c)) req);
  resBytes ← wrapping "failed to read response body: " (lift (http.ReadAll res));
  bookResponse ← wrapping "failed to unmarshal response body: "
                   (lift (unmarshal resBytes));
  match api.CheckErrorResponse (http.StatusCode res) (api.Code (Base bookResponse)) with
  | nil => mret (Result bookResponse)
  | err => fail (Wrapf "error received in response: " err)
  end.

End GetBook.
End getbook.

Module getticker.
Section GetTickers.
Context `{!CodeTable, !http.URLParser}.
Context {Ticker : Type} `{!Unmarshal (Response (list Ticker))}.

Definition methodGetTicker : string := "public/get-tickers".

Definition GetTickers (c : Client) (instrument : string) : M (list Ticker) :=
  req ← wrapping "failed to create request: "
          (lift (http.NewRequestWithContext http.MethodGet
                   (api.BaseURL (requester c) ++ api.V1 ++ methodGetTicker) None));
  let req := http.SetContentType "application/json" req in
  let req :=
    if bool_decide (instrument = "") then req
    else http.SetQuery (http.Add "instrument_name" instrument (http.Query req)) req in
  res ← wrapping "failed to do request: " (Do (api.Client (requester c)) req);
  resBytes ← wrapping "failed to read response body: " (lift (http.ReadAll res));
  tickerResponse ← wrapping "failed to unmarshal response body: "
                     (lift (unmarshal resBytes));
  match api.CheckErrorResponse (http.StatusCode res) (api.Code (Base tickerResponse)) with
  | nil => mret (Result tickerResponse)
  | err => fail (Wrapf "error received in response: " err)
  end.

End GetTickers.
End getticker.

Module getdepositaddress.
Definition methodGetDepositAddress : string := "private/get-deposit-address".

Record GetDepositAddressRequest : Type := {
  Currency : string
}.

(** The parameter map the endpoint fills before signing. *)
Definition buildParams (req : GetDepositAddressRequest) : gmap string value :=
  let params : gmap string value := ∅ in
  let params :=
    if bool_decide (Currency req ≠ "") then <["currency" := VString (Currency req)]> params
    else params in
  params.

Section GetDepositAddress.
Context `{!CodeTable, !http.URLParser}.
Context {DepositAddress : Type} `{!Unmarshal (Response (list DepositAddress))}.

Definition GetDepositAddress (c : Client) (req : GetDepositAddressRequest)
    : M (list DepositAddress) :=
  id ← Generate (idGenerator c);
  now ← Now (clock c);
  let timestamp := time.UnixMilli now in
  let params := buildParams req in
  signature ← wrapping "failed to create signature: "
                (GenerateSignature (signatureGenerator c)
                   {| auth.APIKey := apiKey c; auth.SecretKey := secretKey c;
                      auth.ID := id; auth.Method := methodGetDepositAddress;
                      auth.Timestamp := timestamp; auth.Params := Some params |});
  let body := {| api.ID := id; api.Method := methodGetDepositAddress;
                 api.Nonce := timestamp; api.Params := Some params;
                 api.Signature := signature; api.APIKey := apiKey c;
                 api.Version := "" |} in
  '(statusCode, getDepositAddressResponse) ←
    wrapping "failed to execute post request: "
      (api.Post (requester c) body methodGetDepositAddress);
  match api.CheckErrorResponse statusCode (api.Code (Base getDepositAddressResponse)) with
  | nil => mret (Result getDepositAddressResponse)
  | err => fail (Wrapf "error received in response: " err)
  end.

End GetDepositAddress.
End getdepositaddress.

Module getdeposithistory.
Definition methodGetDepositHistory : string := "private/get-deposit-history".

Record GetDepositHistoryRequest : Type := {
  Currency : string;
  Start : time.Time;
  End_ : time.Time;
  PageSize : Z;
  Page : Z;
  Status : string
}.

(** The parameter map the endpoint fills before signing. *)
Definition buildParams (req : GetDepositHistoryRequest) : gmap string value :=
  let params : gmap string value := ∅ in
  let params :=
    if bool_decide (Currency req ≠ "") then <["currency" := VString (Currency req)]> params
    else params in
  let params :=
    if bool_decide (PageSize req ≠ 0) then <["page_size" := VInt (PageSize req)]> params
    else params in
  let params :=
    if negb (time.IsZero (Start req)) then
      <["start_ts" := VInt64 (time.UnixMilli (Start req))]> params
    else params in
  let params :=
    if negb (time.IsZero (End_ req)) then
      <["end_ts" := VInt64 (time.UnixMilli (End_ req))]> params
    else params in
  let params := <["page" := VInt (Page req)]> params in
  let params :=
    if bool_decide (Status req ≠ "") then <["status" := VString (Status req)]> params
    else params in
  params.

Section GetDepositHistory.
Context `{!CodeTable, !http.URLParser}.
Context {Deposit : Type} `{!Unmarshal (Response (list Deposit))}.

Definition GetDepositHistory (c : Client) (req : GetDepositHistoryRequest)
    : M (list Deposit) :=
  if PageSize req <? 0 then
    fail (InvalidParameterError "req.PageSize" "cannot be less than 0")
  else if 200 <? PageSize req then
    fail (InvalidParameterError "req.PageSize" "cannot be greater than 200")
  else
  id ← Generate (idGenerator c);
  now ← Now (clock c);
  let timestamp := time.UnixMilli now in
  let params := buildParams req in
  signature ← wrapping "failed to create signature: "
                (GenerateSignature (signatureGenerator c)
                   {| auth.APIKey := apiKey c; auth.SecretKey := secretKey c;
                      auth.ID := id; auth.Method := methodGetDepositHistory;
                      auth.Timestamp := timestamp; auth.Params := Some params |});
  let body := {| api.ID := id; api.Method := methodGetDepositHistory;
                 api.Nonce := timestamp; api.Params := Some params;
                 api.Signature := signature; api.APIKey := apiKey c;
                 api.Version := "" |} in
  '(statusCode, getDepositHistoryResponse) ←
    wrapping "failed to execute post request: "
      (api.Post (requester c) body methodGetDepositHistory);
  match api.CheckErrorResponse statusCode (api.Code (Base getDepositHistoryResponse)) with
  | nil => mret (Result getDepositHistoryResponse)
  | err => fail (Wrapf "error received in response: " err)
  end.

End GetDepositHistory.
End getdeposithistory.

Module getwithdrawalhistory.
Definition methodGetWithdrawalHistory : string := "private/get-withdrawal-history".

Record GetWithdrawalHistoryRequest : Type := {
  Currency : string;
  Start : time.Time;
  End_ : time.Time;
  PageSize : Z;
  Page : Z;
  Status : string
}.

(** The parameter map the endpoint fills before signing. *)
Definition buildParams (req : GetWithdrawalHistoryRequest) : gmap string value :=
  let params : gmap string value := ∅ in
  let params :=
    if bool_decide (Currency req ≠ "") then <["currency" := VString (Currency req)]> params
    else params in
  let params :=
    if bool_decide (PageSize req ≠ 0) then <["page_size" := VInt (PageSize req)]> params
    else params in
  let params :=
    if negb (time.IsZero (Start req)) then
      <["start_ts" := VInt64 (time.UnixMilli (Start req))]> params
    else params in
  let params :=
    if negb (time.IsZero (End_ req)) then
      <["end_ts" := VInt64 (time.UnixMilli (End_ req))]> params
    else params in
  let params := <["page" := VInt (Page req)]> params in
  let params :=
    if bool_decide (Status req ≠ "") then <["status" := VString (Status req)]> params
    else params in
  params.

Section GetWithdrawalHistory.
Context `{!CodeTable, !http.URLParser}.
Context {Withdrawal : Type} `{!Unmarshal (Response (list Withdrawal))}.

Definition GetWithdrawalHistory (c : Client) (req : GetWithdrawalHistoryRequest)
    : M (list Withdrawal) :=
  if PageSize req <? 0 then
    fail (InvalidParameterError "req.PageSize" "cannot be less than 0")
  else if 200 <? PageSize req then
    fail (InvalidParameterError "req.PageSize" "cannot be greater than 200")
  else
  id ← Generate (idGenerator c);
  now ← Now (clock c);
  let timestamp := time.UnixMilli now in
  let params := buildParams req in
  signature ← wrapping "failed to create signature: "
                (GenerateSignature (signatureGenerator c)
                   {| auth.APIKey := apiKey c; auth.SecretKey := secretKey c;
                      auth.ID := id; auth.Method := methodGetWithdrawalHistory;
                      auth.Timestamp := timestamp; auth.Params := Some params |});
  let body := {| api.ID := id; api.Method := methodGetWithdrawalHistory;
                 api.Nonce := timestamp; api.Params := Some params;
                 api.Signature := signature; api.APIKey := apiKey c;
                 api.Version := "" |} in
  '(statusCode, getWithdrawalHistoryResponse) ←
    wrapping "failed to execute post request: "
      (api.Post (requester c) body methodGetWithdrawalHistory);
  match api.CheckErrorResponse statusCode (api.Code (Base getWithdrawalHistoryResponse)) with
  | nil => mret (Result getWithdrawalHistoryResponse)
  | err => fail (Wrapf "error received in response: " err)
  end.

End GetWithdrawalHistory.
End getwithdrawalhistory.

Module createwithdrawal.
Definition methodCreateWithdrawal : string := "private/create-withdrawal".

Record CreateWithdrawalRequest : Type := {
  Currency : string;
  Amount : float;
  Address : string;
  ClientWid : string;
  AddressTag : string;
  NetworkId : string
}.

(** The parameter map the endpoint fills before signing. *)
Definition buildParams (req : CreateWithdrawalRequest) : gmap string value :=
  let params : gmap string value := ∅ in
  let params :=
    if bool_decide (Currency req ≠ "") then <["currency" := VString (Currency req)]> params
    else params in
  let params :=
    if bool_decide (ClientWid req ≠ "") then <["client_wid" := VString (ClientWid req)]> params
    else params in
  let params :=
    if negb (PrimFloat.eqb (Amount req) 0%float) then
      <["amount" := VFloat64 (Amount req)]> params
    else params in
  let params :=
    if bool_decide (Address req ≠ "") then <["address" := VString (Address req)]> params
    else params in
  let params :=
    if bool_decide (AddressTag req ≠ "") then
      <["address_tag" := VString (AddressTag req)]> params
    else params in
  let params :=
    if bool_decide (NetworkId req ≠ "") then <["network_id" := VString (NetworkId req)]> params
    else params in
  params.

Section CreateWithdrawal.
Context `{!CodeTable, !http.URLParser}.
Context {CreateWithdrawalResult : Type} `{!Unmarshal (Response CreateWithdrawalResult)}.

Definition CreateWithdrawal (c : Client) (req : CreateWithdrawalRequest)
    : M CreateWithdrawalResult :=
  id ← Generate (idGenerator c);
  now ← Now (clock c);
  let timestamp := time.UnixMilli now in
  let params := buildParams req in
  signature ← wrapping "failed to create signature: "
                (GenerateSignature (signatureGenerator c)
                   {| auth.APIKey := apiKey c; auth.SecretKey := secretKey c;
                      auth.ID := id; auth.Method := methodCreateWithdrawal;
                      auth.Timestamp := timestamp; auth.Params := Some params |});
  let body := {| api.ID := id; api.Method := methodCreateWithdrawal;
                 api.Nonce := timestamp; api.Params := Some params;
                 api.Signature := signature; api.APIKey := apiKey c;
                 api.Version := "" |} in
  '(statusCode, createWithdrawalResponse) ←
    wrapping "failed to execute post request: "
      (api.Post (requester c) body methodCreateWithdrawal);
  match api.CheckErrorResponse statusCode (api.Code (Base createWithdrawalResponse)) with
  | nil => mret (Result createWithdrawalResponse)
  | err => fail (Wrapf "error received in response: " err)
  end.

End CreateWithdrawal.
End createwithdrawal.

Module userbalancehistory.
Definition methodUserBalanceHistory : string := "private/user-balance-history".

Record UserBalanceHistoryRequest : Type := {
  Timeframe : string;
  EndTime : time.Time;
  Limit : Z
}.

(** The parameter map the endpoint fills before signing. *)
Definition buildParams (req : UserBalanceHistoryRequest) : gmap string value :=
  let params : gmap string value := ∅ in
  let params :=
    if bool_decide (Timeframe req ≠ "") then <["timeframe" := VString (Timeframe req)]> params
    else params in
  let params :=
    if bool_decide (Limit req ≠ 0) then <["limit" := VInt (Limit req)]> params
    else params in
  let params :=
    if negb (time.IsZero (EndTime req)) then
      <["end_time" := VInt64 (time.UnixMilli (EndTime req))]> params
    else params in
  params.

Section UserBalanceHistory.
Context `{!CodeTable, !http.URLParser}.
Context {UserBalanceHistoryResult : Type} `{!Unmarshal (Response UserBalanceHistoryResult)}.

Definition UserBalanceHistory (c : Client) (req : UserBalanceHistoryRequest)
    : M UserBalanceHistoryResult :=
  id ← Generate (idGenerator c);
  now ← Now (clock c);
  let timestamp := time.UnixMilli now in
  let params := buildParams req in
  signature ← wrapping "failed to create signature: "
                (GenerateSignature (signatureGenerator c)
                   {| auth.APIKey := apiKey c; auth.SecretKey := secretKey c;
                      auth.ID := id; auth.Method := methodUserBalanceHistory;
                      auth.Timestamp := timestamp; auth.Params := Some params |});
  let body := {| api.ID := id; api.Method := methodUserBalanceHistory;
                 api.Nonce := timestamp; api.Params := Some params;
                 api.Signature := signature; api.APIKey := apiKey c;
                 api.Version := api.V1 |} in
  '(statusCode, userBalanceHistoryResponse) ←
    wrapping "failed to execute post request: "
      (api.Post (requester c) body methodUserBalanceHistory);
  match api.CheckErrorResponse statusCode (api.Code (Base userBalanceHistoryResponse)) with
  | nil => mret (Result userBalanceHistoryResponse)
  | err => fail (Wrapf "error received in response: " err)
  end.

End UserBalanceHistory.
End userbalancehistory.

(** ** The shape of a call's effects *)

(** The JSON value that carries the dynamic value [v], a string as [text]
    gives it: the identity for the string itself. *)
Definition carried (text : string → string) (v : value) : jsonenc.Value :=
  match v with
  | VString s => jsonenc.Str (text s)
  | VInt n | VInt64 n => jsonenc.Num n
  | VFloat64 f => jsonenc.Float f
  end.

(** The members id, method, nonce, params and api_key of the JSON document
    [json] are the values of the signature request [sreq], every string as
    [text] gives it.  A field tagged [omitempty] has no member for the empty
    string. *)
Definition carries_signed (text : string → string) (sreq : auth.SignatureRequest)
    (json : jsonenc.Value) : Prop :=
  jsonenc.member "id" json = Some (jsonenc.Num (auth.ID sreq)) ∧
  jsonenc.member "method" json = Some (jsonenc.Str (text (auth.Method sreq))) ∧
  jsonenc.member "nonce" json = Some (jsonenc.Num (auth.Timestamp sreq)) ∧
  jsonenc.member "params" json =
    Some (match auth.Params sreq with
          | None => jsonenc.Null
          | Some p =>
              jsonenc.Object
                ((λ kv, (kv.1, carried text kv.2)) <$> sort_keys (map_to_list p))
          end) ∧
  jsonenc.member "api_key" json =
    (if bool_decide (auth.APIKey sreq = "") then None
     else Some (jsonenc.Str (text (auth.APIKey sreq)))).

(** Every string among the parameters is valid UTF-8: the encoder writes it
    as it is. *)
Definition kept_strings (p : gmap string value) : Prop :=
  ∀ k s, p !! k = Some (VString s) → jsonenc.coerce s = s.

(** The signature request a private endpoint builds in world [w]. *)
Definition signatureRequest (c : Client) (w : World) (method : string)
    (p : gmap string value) : auth.SignatureRequest :=
  {| auth.APIKey := apiKey c; auth.SecretKey := secretKey c;
     auth.ID := idGenerator c (idCalls w); auth.Method := method;
     auth.Timestamp := time.UnixMilli (clock c (clockReads w));
     auth.Params := Some p |}.

(** The envelope built from a signature request and its signature. *)
Definition envelope (sreq : auth.SignatureRequest) (signature version : string) : api.Request :=
  {| api.ID := auth.ID sreq; api.Method := auth.Method sreq;
     api.Nonce := auth.Timestamp sreq; api.Params := auth.Params sreq;
     api.Signature := signature; api.APIKey := auth.APIKey sreq;
     api.Version := version |}.

(** The HTTP request [doRequest] hands to the client for an envelope. *)
Definition wireRequest (r : api.Requester) (httpMethod method : string)
    (body : api.Request) (json : jsonenc.Value) (q : http.Values) : http.Request :=
  {| http.Method := httpMethod;
     http.URL := api.BaseURL r
                 ++ (if bool_decide (api.Version body = "") then api.V1 else api.Version body)
                 ++ method;
     http.Query := q;
     http.ContentType := "application/json";
     http.Body := Some json |}.

(** A call went from [w] to [w'], transmitted at most one request, and the
    body of that request carries, every string as [text] gives it, the values
    of the one signature request the call made, together with the signature
    the generator returned for it. *)
Definition transmits_signed (text : string → string) (c : Client) (w w' : World) : Prop :=
  (sent w' = sent w ∨ ∃ hreq, sent w' = (sent w ++ [hreq])%list) ∧
  ∀ hreq, sent w' = (sent w ++ [hreq])%list →
    ∃ sreq signature json,
      signed w' = (signed w ++ [sreq])%list ∧
      signatureGenerator c sreq = Ok signature ∧
      http.Body hreq = Some json ∧
      carries_signed text sreq json ∧
      jsonenc.member "sig" json =
        (if bool_decide (signature = "") then None
         else Some (jsonenc.Str (jsonenc.coerce signature))).

(** What a private endpoint does to the world, from [w] to [w']: one id, one
    clock read, one signature request, and at most one POST, which carries the
    envelope built from that signature request. *)
Definition private_run `{!http.URLParser} (c : Client) (method : string)
    (p : gmap string value) (version : string) (w w' : World) : Prop :=
  let sreq := signatureRequest c w method p in
  idCalls w' = S (idCalls w) ∧
  clockReads w' = S (clockReads w) ∧
  signed w' = (signed w ++ [sreq])%list ∧
  sent w' =
    match signatureGenerator c sreq with
    | Error _ => sent w
    | Ok signature =>
        let body := envelope sreq signature version in
        match api.Marshal body with
        | Error _ => sent w
        | Ok json =>
            match http.url_Parse
                    (api.BaseURL (requester c)
                     ++ (if bool_decide (version = "") then api.V1 else version)
                     ++ method) with
            | Error _ => sent w
            | Ok q =>
                (sent w ++ [wireRequest (requester c) http.MethodPost method body json q])%list
            end
        end
    end.

(** What GetBook and GetTickers do to the world: no id, no clock read, no
    signature request, and at most one GET without a body, whose query is the
    URL's own query extended by [extend]. *)
Definition public_query_run `{!http.URLParser} (url : string)
    (extend : http.Values → http.Values) (w w' : World) : Prop :=
  idCalls w' = idCalls w ∧
  clockReads w' = clockReads w ∧
  signed w' = signed w ∧
  sent w' =
    match http.url_Parse url with
    | Error _ => sent w
    | Ok q =>
        (sent w ++ [{| http.Method := http.MethodGet; http.URL := url;
                       http.Query := extend q;
                       http.ContentType := "application/json";
                       http.Body := None |}])%list
    end.

(** The query GetTickers sets on a URL whose own query is [q]. *)
Definition tickersQuery (instrument : string) (q : http.Values) : http.Values :=
  if bool_decide (instrument = "") then q
  else http.Add "instrument_name" instrument q.

(** The query GetBook sets on a URL whose own query is [q]. *)
Definition bookQuery (instrument : string) (depth : Z) (q : http.Values) : http.Values :=
  let q := http.Add "instrument_name" instrument q in
  if 0 <? depth then http.Add "depth" (pretty depth) q else q.

(** The envelope GetInstruments marshals as the body of its GET. *)
Definition instrumentsEnvelope (c : Client) (w : World) : jsonenc.Value :=
  jsonenc.Object
    [("id", jsonenc.Num (idGenerator c (idCalls w)));
     ("method", jsonenc.Str getinstruments.methodGetInstruments);
     ("nonce", jsonenc.Num (time.UnixMilli (clock c (clockReads w))));
     ("params", jsonenc.Null);
     ("version", jsonenc.Str "")].

(** The keys of the parameter map of the two history endpoints: [page] always,
    the others only for a non-empty or non-zero field. *)
Definition history_params (currency : string) (start end_ : time.Time)
    (pageSize page : Z) (status : string) (p : gmap string value) : Prop :=
  p !! "page" = Some (VInt page) ∧
  p !! "currency" = (if bool_decide (currency ≠ "") then Some (VString currency) else None) ∧
  p !! "page_size" = (if bool_decide (pageSize ≠ 0) then Some (VInt pageSize) else None) ∧
  p !! "start_ts"
    = (if negb (time.IsZero start) then Some (VInt64 (time.UnixMilli start)) else None) ∧
  p !! "end_ts"
    = (if negb (time.IsZero end_) then Some (VInt64 (time.UnixMilli end_)) else None) ∧
  p !! "status" = (if bool_decide (status ≠ "") then Some (VString status) else None) ∧
  ∀ k, is_Some (p !! k) →
       k ∈ ["currency"; "page_size"; "start_ts"; "end_ts"; "page"; "status"].


(** ** Concrete collaborators, for running the endpoints on examples *)

Module fixture.

(** A table with the one code the repository's tests use. *)
Definition table : CodeTable := λ code, if code =? 10003 then ErrIllegalIP else nil.

(** Every URL parses and carries no query. *)
Definition parser : http.URLParser := λ _, Ok ∅.

(** A decoder that reads the body as the response code and answers with a
    fixed payload. *)
Definition decoder {A : Type} (payload : A) : Unmarshal (Response A) := λ raw,
  Ok {| Base := {| api.RespID := "1"; api.RespMethod := ""; api.Code := raw |};
        Result := payload |}.

Definition transport (status : Z) (raw : string) : http.Client :=
  λ _ _, Ok {| http.StatusCode := status; http.ReadAll := Ok raw |}.

(** November 10, 2022, 07:49:00.018 UTC: 1668066540018 ms after the epoch. *)
Definition instant : time.Time :=
  {| time.sec := 62135596800 + 1668066540; time.nsec := 18000000 |}.

Definition client (status : Z) (raw : string) : Client :=
  {| apiKey := "k"; secretKey := "s";
     clock := λ _, instant;
     idGenerator := λ n, 1 + Z.of_nat n;
     signatureGenerator := λ _, Ok "5f2b";
     requester := {| api.Client := transport status raw;
                     api.BaseURL := productionBaseURL |} |}.

Definition w0 : World := {| idCalls := 0; clockReads := 0; signed := []; sent := [] |}.

Definition zeroTime : time.Time := {| time.sec := 0; time.nsec := 0 |}.

Definition depositRequest (currency : string) (pageSize page : Z)
    : getdeposithistory.GetDepositHistoryRequest :=
  {| getdeposithistory.Currency := currency;
     getdeposithistory.Start := zeroTime; getdeposithistory.End_ := zeroTime;
     getdeposithistory.PageSize := pageSize; getdeposithistory.Page := page;
     getdeposithistory.Status := "" |}.

Definition withdrawalRequest (currency : string) (pageSize page : Z)
    : getwithdrawalhistory.GetWithdrawalHistoryRequest :=
  {| getwithdrawalhistory.Currency := currency;
     getwithdrawalhistory.Start := zeroTime; getwithdrawalhistory.End_ := zeroTime;
     getwithdrawalhistory.PageSize := pageSize; getwithdrawalhistory.Page := page;
     getwithdrawalhistory.Status := "" |}.

(** An envelope of an authenticated call and one of a public call. *)
Definition signedEnvelope : api.Request :=
  {| api.ID := 1; api.Method := "private/get-deposit-history";
     api.Nonce := 1668066540018; api.Params := Some {[ "page" := VInt 0 ]};
     api.Signature := "5f2b"; api.APIKey := "k"; api.Version := "" |}.

Definition publicEnvelope : api.Request :=
  {| api.ID := 1; api.Method := "public/get-instruments";
     api.Nonce := 1668066540018; api.Params := None;
     api.Signature := ""; api.APIKey := ""; api.Version := "" |}.

Definition getDepositHistory :=
  @getdeposithistory.GetDepositHistory table parser string (decoder []).
Definition getInstruments :=
  @getinstruments.GetInstruments table parser string (decoder []).
Definition getTickers :=
  @getticker.GetTickers table parser string (decoder []).
Definition getBook :=
  @getbook.GetBook table parser string (decoder "").

End fixture.

(** ** Construction and configuration of the client *)

Module config.

(** A [ClientOption] works on the client in place and reports an error: the
    client as it leaves it, and the error ([nil] for none). *)
Definition ClientOption : Type := Client → Client * error.

Definition setKeys (apiKey secretKey : string) (c : Client) : Client :=
  {| client.apiKey := apiKey; client.secretKey := secretKey;
     clock := clock c; idGenerator := idGenerator c;
     signatureGenerator := signatureGenerator c; requester := requester c |}.

Definition setBaseURL (url : string) (c : Client) : Client :=
  {| client.apiKey := client.apiKey c; client.secretKey := client.secretKey c;
     clock := clock c; idGenerator := idGenerator c;
     signatureGenerator := signatureGenerator c;
     requester := {| api.Client := api.Client (requester c); api.BaseURL := url |} |}.

Definition setHTTPClient (h : http.Client) (c : Client) : Client :=
  {| client.apiKey := client.apiKey c; client.secretKey := client.secretKey c;
     clock := clock c; idGenerator := idGenerator c;
     signatureGenerator := signatureGenerator c;
     requester := {| api.Client := h; api.BaseURL := api.BaseURL (requester c) |} |}.

Definition setIDGenerator (g : nat → Z) (c : Client) : Client :=
  {| client.apiKey := client.apiKey c; client.secretKey := client.secretKey c;
     clock := clock c; idGenerator := g;
     signatureGenerator := signatureGenerator c; requester := requester c |}.

Definition setSignatureGenerator (g : auth.SignatureGenerator) (c : Client) : Client :=
  {| client.apiKey := client.apiKey c; client.secretKey := client.secretKey c;
     clock := clock c; idGenerator := idGenerator c;
     signatureGenerator := g; requester := requester c |}.

Definition setClock (k : nat → time.Time) (c : Client) : Client :=
  {| client.apiKey := client.apiKey c; client.secretKey := client.secretKey c;
     clock := k; idGenerator := idGenerator c;
     signatureGenerator := signatureGenerator c; requester := requester c |}.

(** The loop over the options: stop at the first error. *)
Fixpoint applyOptions (opts : list ClientOption) (c : Client) : Client * error :=
  match opts with
  | [] => (c, nil)
  | opt :: rest =>
      match opt c with
      | (c', nil) => applyOptions rest c'
      | (c', err) => (c', err)
      end
  end.

Definition UpdateConfig (apiKey secretKey : string) (opts : list ClientOption)
    (c : Client) : Client * error :=
  if bool_decide (apiKey = "") then
    (c, InvalidParameterError "apiKey" "cannot be empty")
  else if bool_decide (secretKey = "") then
    (c, InvalidParameterError "secretKey" "cannot be empty")
  else applyOptions opts (setKeys apiKey secretKey c).

(** What [New] starts from: the generators, the clock and the HTTP client of
    the packages it imports. *)
Class Defaults : Type := {
  defaultIDGenerator : nat → Z;
  defaultSignatureGenerator : auth.SignatureGenerator;
  realClock : nat → time.Time;
  DefaultClient : http.Client
}.

Definition New `{!Defaults} (apiKey secretKey : string) (opts : list ClientOption)
    : result Client :=
  let c := {| client.apiKey := ""; client.secretKey := "";
              clock := realClock; idGenerator := defaultIDGenerator;
              signatureGenerator := defaultSignatureGenerator;
              requester := {| api.Client := DefaultClient;
                              api.BaseURL := productionBaseURL |} |} in
  match UpdateConfig apiKey secretKey opts c with
  | (c, nil) => Ok c
  | (_, err) => Error err
  end.

Definition WithProductionEnvironment : ClientOption :=
  λ c, (setBaseURL productionBaseURL c, nil).

Definition WithUATEnvironment : ClientOption :=
  λ c, (setBaseURL uatSandboxBaseURL c, nil).

(** A nil argument is [None]. *)
Definition WithHTTPClient (httpClient : option http.Client) : ClientOption :=
  λ c, match httpClient with
       | None => (c, InvalidParameterError "httpClient" "cannot be empty")
       | Some h => (setHTTPClient h c, nil)
       end.

Definition WithIDGenerator (idGenerator : option (nat → Z)) : ClientOption :=
  λ c, match idGenerator with
       | None => (c, InvalidParameterError "idGenerator" "cannot be empty")
       | Some g => (setIDGenerator g c, nil)
       end.

Definition WithSignatureGenerator (signatureGenerator : option auth.SignatureGenerator)
    : ClientOption :=
  λ c, match signatureGenerator with
       | None => (c, InvalidParameterError "signatureGenerator" "cannot be empty")
       | Some g => (setSignatureGenerator g c, nil)
       end.

Definition WithClock (clock : option (nat → time.Time)) : ClientOption :=
  λ c, match clock with
       | None => (c, InvalidParameterError "clock" "cannot be empty")
       | Some k => (setClock k c, nil)
       end.

Definition WithBaseURL (url : string) : ClientOption :=
  λ c, if bool_decide (url = "") then
         (c, InvalidParameterError "url" "cannot be empty")
       else (setBaseURL url c, nil).

Definition BaseURL (c : Client) : string := api.BaseURL (requester c).
Definition APIKey (c : Client) : string := client.apiKey c.
Definition SecretKey (c : Client) : string := client.secretKey c.
Definition HTTPClient (c : Client) : http.Client := api.Client (requester c).

(** The options the package offers. *)
Inductive exported : ClientOption → Prop :=
| exported_production : exported WithProductionEnvironment
| exported_uat : exported WithUATEnvironment
| exported_http h : exported (WithHTTPClient h)
| exported_id g : exported (WithIDGenerator g)
| exported_signature g : exported (WithSignatureGenerator g)
| exported_clock k : exported (WithClock k)
| exported_url url : exported (WithBaseURL url).

End config.

(** The options that leave the base URL alone. *)
Inductive keeps_url : config.ClientOption → Prop :=
| keeps_url_http h : keeps_url (config.WithHTTPClient h)
| keeps_url_id g : keeps_url (config.WithIDGenerator g)
| keeps_url_signature g : keeps_url (config.WithSignatureGenerator g)
| keeps_url_clock k : keeps_url (config.WithClock k).

(** ** The outcome of an exchange *)

(** The error [err] handed to the caller still leads to its cause [e]: it is
    not nil, [errors.Is] finds a non-nil [e], and [errors.As] sees in it what
    it sees in [e]. *)
Definition reaches (err e : error) : Prop :=
  err ≠ nil ∧
  (e ≠ nil → Is err e = true) ∧
  AsResponseError err = AsResponseError e.

(** What [doRequest] returned, [out], once it has handed a request to the
    client in world [w]: the client's, the reader's or the decoder's error,
    or else the status code as received and the decoded response. *)
Definition exchanged {R : Type} `{!Unmarshal R} (r : api.Requester) (w : World)
    (out : result (Z * R) * World) : Prop :=
  ∀ hreq, sent out.2 = (sent w ++ [hreq])%list →
    match api.Client r (sent w) hreq with
    | Error e => ∃ err, out.1 = Error err ∧ reaches err e
    | Ok res =>
        match http.ReadAll res with
        | Error e => ∃ err, out.1 = Error err ∧ reaches err e
        | Ok raw =>
            match unmarshal raw with
            | Error e => ∃ err, out.1 = Error err ∧ reaches err e
            | Ok resp => out.1 = Ok (http.StatusCode res, resp)
            end
        end
    end.

(** What an endpoint returned, [out], once it has handed a request to the
    client in world [w]: a step's error, or else the classifier's verdict on
    the status and the decoded code. *)
Definition answered {R : Type} `{!CodeTable} `{!Unmarshal (Response R)} (c : Client)
    (w : World) (out : result R * World) : Prop :=
  ∀ hreq, sent out.2 = (sent w ++ [hreq])%list →
    match api.Client (requester c) (sent w) hreq with
    | Error e => ∃ err, out.1 = Error err ∧ reaches err e
    | Ok res =>
        match http.ReadAll res with
        | Error e => ∃ err, out.1 = Error err ∧ reaches err e
        | Ok raw =>
            match unmarshal raw with
            | Error e => ∃ err, out.1 = Error err ∧ reaches err e
            | Ok resp =>
                out.1 =
                  match api.CheckErrorResponse (http.StatusCode res)
                          (api.Code (Base resp)) with
                  | nil => Ok (Result resp)
                  | err => Error (Wrapf "error received in response: " err)
                  end
            end
        end
    end.

(** A payload comes only out of one request that was answered, read and
    decoded, with a status below 400. *)
Definition payload_only_from_answer {R : Type} `{!Unmarshal (Response R)} (c : Client)
    (w : World) (out : result R * World) : Prop :=
  ∀ payload, out.1 = Ok payload →
    ∃ hreq res raw resp,
      sent out.2 = (sent w ++ [hreq])%list ∧
      api.Client (requester c) (sent w) hreq = Ok res ∧
      http.ReadAll res = Ok raw ∧
      unmarshal raw = Ok resp ∧
      http.StatusCode res < 400 ∧
      payload = Result resp.


(** What a private endpoint returns, [out], when the signature generator
    refuses the request it built in world [w]: the wrapped refusal, with the id
    and the clock read used up, the signature request on record and nothing
    sent. *)
Definition refused {R : Type} (c : Client) (method : string) (p : gmap string value)
    (w : World) (out : result R * World) : Prop :=
  ∀ e, signatureGenerator c (signatureRequest c w method p) = Error e →
    out = (Error (Wrapf "failed to create signature: " e),
           {| idCalls := S (idCalls w); clockReads := S (clockReads w);
              signed := (signed w ++ [signatureRequest c w method p])%list;
              sent := sent w |}).

(** No string parameter is empty, no [int] parameter other than those of
    [always] is zero, no float parameter compares equal to zero. *)
Definition no_zero_values (always : list string) (p : gmap string value) : Prop :=
  ∀ k v, p !! k = Some v →
    match v with
    | VString s => s ≠ ""
    | VInt n => n ≠ 0 ∨ k ∈ always
    | VInt64 _ => True
    | VFloat64 f => PrimFloat.eqb f 0%float = false
    end.

(** A value the JSON encoder accepts: anything but NaN and the infinities. *)
Definition supported (v : value) : Prop :=
  match v with
  | VFloat64 f => is_nan f || is_infinity f = false
  | _ => True
  end.

(** More concrete collaborators. *)
Module scenario.

(** A signature generator that refuses. *)
Definition refusal : error := New "no key material".

Definition unsignedClient : Client :=
  config.setSignatureGenerator (λ _, Error refusal) (fixture.client 200 "0").

(** A transport that cannot connect. *)
Definition unreachable : error := New "connection refused".

Definition offlineClient : Client :=
  config.setHTTPClient (λ _ _, Error unreachable) (fixture.client 200 "0").

(** A decoder that rejects every body. *)
Definition malformed : error := New "unexpected end of JSON input".

Definition rejecting {A : Type} : Unmarshal (Response A) := λ _, Error malformed.

(** A Go string that is not valid UTF-8: the one byte FF. *)
Definition notUTF8 : string := String "255"%char "".

Definition defaults : config.Defaults :=
  {| config.defaultIDGenerator := λ n, Z.of_nat n;
     config.defaultSignatureGenerator := λ _, Ok "5f2b";
     config.realClock := λ _, fixture.instant;
     config.DefaultClient := fixture.transport 200 "0" |}.

(** Requests for the three endpoints that check nothing. *)
Definition addressRequest : getdepositaddress.GetDepositAddressRequest :=
  {| getdepositaddress.Currency := "BTC" |}.

Definition withdrawal (amount : float) : createwithdrawal.CreateWithdrawalRequest :=
  {| createwithdrawal.Currency := "BTC"; createwithdrawal.Amount := amount;
     createwithdrawal.Address := "addr"; createwithdrawal.ClientWid := "";
     createwithdrawal.AddressTag := ""; createwithdrawal.NetworkId := "" |}.

Definition balanceRequest (limit : Z) : userbalancehistory.UserBalanceHistoryRequest :=
  {| userbalancehistory.Timeframe := "H1";
     userbalancehistory.EndTime := fixture.zeroTime;
     userbalancehistory.Limit := limit |}.

End scenario.

(** * Properties *)

(** ** The response classifier *)

Section Classifier.
Context `{!CodeTable}.

Lemma CheckErrorResponse_below (statusCode : Z) (responseCode : json.Number) :
  statusCode < 400 → api.CheckErrorResponse statusCode responseCode = nil.
Proof.
  intros Hlt. unfold api.CheckErrorResponse.
  destruct (400 <=? statusCode) eqn:Hle; [apply Z.leb_le in Hle; lia | reflexivity].
Qed.

Lemma CheckErrorResponse_parsed (statusCode code : Z) (responseCode : json.Number) :
  400 ≤ statusCode → json.Int64 responseCode = Some code →
  api.CheckErrorResponse statusCode responseCode = NewResponseError statusCode code.
Proof.
  intros Hge Hcode. unfold api.CheckErrorResponse.
  apply Z.leb_le in Hge. rewrite Hge, Hcode. reflexivity.
Qed.

Lemma CheckErrorResponse_malformed (statusCode : Z) (responseCode : json.Number) :
  400 ≤ statusCode → json.Int64 responseCode = None →
  api.CheckErrorResponse statusCode responseCode =
    ResponseError 0 statusCode (Errorf ("invalid response code: " ++ responseCode)).
Proof.
  intros Hge Hcode. unfold api.CheckErrorResponse.
  apply Z.leb_le in Hge. rewrite Hge, Hcode. reflexivity.
Qed.

Lemma CheckErrorResponse_nil_iff (statusCode : Z) (responseCode : json.Number) :
  api.CheckErrorResponse statusCode responseCode = nil ↔ statusCode < 400.
Proof.
  split; [| apply CheckErrorResponse_below].
  unfold api.CheckErrorResponse, NewResponseError.
  destruct (400 <=? statusCode) eqn:Hle.
  - destruct (json.Int64 responseCode); discriminate.
  - intros _. apply Z.leb_gt in Hle. exact Hle.
Qed.

(** C7: for every HTTP status below 400 the classifier returns nil (success)
    whatever the response code is: a non-zero code or a code that is no
    integer does not change the outcome, the code is not looked at. *)
Theorem classify_below_400_ignores_code (statusCode : Z) (responseCode : json.Number) :
  statusCode < 400 →
  api.CheckErrorResponse statusCode responseCode = nil ∧
  ∀ other : json.Number,
    api.CheckErrorResponse statusCode other
    = api.CheckErrorResponse statusCode responseCode.
Proof.
  intros Hlt. split.
  - by apply CheckErrorResponse_below.
  - intros other. by rewrite !CheckErrorResponse_below.
Qed.

(** C2, as amended: the classifier succeeds exactly when the HTTP status is
    below 400, without looking at the response code; when the status is 400
    or more and the code parses as the integer [code], the error is a
    [ResponseError] holding that code, the HTTP status and whatever the
    table gives for the code (also when the table does not know it). *)
Theorem classify_by_status (statusCode : Z) (responseCode : json.Number) :
  (api.CheckErrorResponse statusCode responseCode = nil ↔ statusCode < 400) ∧
  ∀ code : Z,
    400 ≤ statusCode → json.Int64 responseCode = Some code →
    api.CheckErrorResponse statusCode responseCode
    = ResponseError code statusCode (errorKind code) ∧
    AsResponseError (api.CheckErrorResponse statusCode responseCode)
    = Some (code, statusCode, errorKind code).
Proof.
  split; [apply CheckErrorResponse_nil_iff |].
  intros code Hge Hcode.
  rewrite (CheckErrorResponse_parsed _ code) by done. done.
Qed.

(** C4: with an HTTP status of 400 or more and a response code that is no
    integer, the classifier returns a [ResponseError] that holds the HTTP
    status and, as its cause, a fresh "invalid response code" error: code 0,
    no sentinel.  It is not nil, no sentinel matches it under [errors.Is]
    (also once an endpoint has wrapped it), and it differs from every error
    built for a parsed code whose kind is a sentinel. *)
Theorem classify_malformed_code (statusCode : Z) (responseCode : json.Number) :
  400 ≤ statusCode → json.Int64 responseCode = None →
  let err := api.CheckErrorResponse statusCode responseCode in
  err = ResponseError 0 statusCode (Errorf ("invalid response code: " ++ responseCode)) ∧
  err ≠ nil ∧
  (∀ text prefix, Is err (New text) = false ∧ Is (Wrapf prefix err) (New text) = false) ∧
  (∀ status' code text, errorKind code = New text → err ≠ NewResponseError status' code).
Proof.
  intros Hge Hcode err. subst err.
  rewrite CheckErrorResponse_malformed by done.
  split; [done |]. split; [done |]. split.
  - intros text prefix. done.
  - intros status' code text Hkind. unfold NewResponseError. rewrite Hkind. done.
Qed.

(** C9: when the HTTP status is 400 or more and the response code parses as
    an integer the table maps to a sentinel, the error an endpoint returns
    (the classifier's error under the endpoint's wrapping) matches that
    sentinel under [errors.Is] and no other sentinel, and [errors.As] finds
    the [ResponseError] with the numeric code and the HTTP status on it. *)
Theorem known_kind_matches_sentinel (statusCode code : Z) (responseCode : json.Number)
    (text prefix : string) :
  400 ≤ statusCode → json.Int64 responseCode = Some code →
  errorKind code = New text →
  let err := Wrapf prefix (api.CheckErrorResponse statusCode responseCode) in
  Is err (New text) = true ∧
  (∀ text', Is err (New text') = true → text' = text) ∧
  AsResponseError err = Some (code, statusCode, New text) ∧
  Is err (ResponseError code statusCode (New text)) = true.
Proof.
  intros Hge Hcode Hkind err. subst err.
  rewrite (CheckErrorResponse_parsed _ code) by done.
  unfold NewResponseError. rewrite Hkind.
  split; [| split; [| split]].
  - cbn. rewrite !bool_decide_eq_false_2 by done.
    by rewrite (bool_decide_eq_true_2 (New text = New text)).
  - intros text'. cbn. rewrite !bool_decide_eq_false_2 by done.
    case_bool_decide; [| done]. intros _. congruence.
  - done.
  - cbn. rewrite bool_decide_eq_false_2 by done. by rewrite bool_decide_eq_true_2.
Qed.

End Classifier.

Lemma classify_below_400_ignores_code_witness :
  @api.CheckErrorResponse fixture.table 200 "10003" = nil ∧
  @api.CheckErrorResponse fixture.table 200 "not a number"
  = @api.CheckErrorResponse fixture.table 200 "10003".
Proof.
  destruct (@classify_below_400_ignores_code fixture.table 200 "10003") as [H1 H2];
    [lia |].
  split; [exact H1 | exact (H2 "not a number")].
Defined.

(** C2, as stated, fails: HTTP status 200 with response code 10003 is
    classified as success although the code is neither 0 nor absent. *)
Lemma classify_success_counterexample :
  ¬ (@api.CheckErrorResponse fixture.table 200 "10003" = nil
     ↔ 200 < 400 ∧ (json.Int64 "10003" = Some 0 ∨ "10003" = "")).
Proof.
  intros [Hsuccess _].
  destruct (Hsuccess eq_refl) as [_ [Hzero | Habsent]]; discriminate.
Qed.

Lemma classify_by_status_witness :
  @api.CheckErrorResponse fixture.table 418 "10003" = ResponseError 10003 418 ErrIllegalIP.
Proof.
  destruct (@classify_by_status fixture.table 418 "10003") as [_ H].
  destruct (H 10003) as [Herr _]; [lia | reflexivity |].
  exact Herr.
Defined.

Lemma classify_malformed_code_witness :
  @api.CheckErrorResponse fixture.table 500 "1e3"
  = ResponseError 0 500 (Errorf "invalid response code: 1e3") ∧
  Is (@api.CheckErrorResponse fixture.table 500 "1e3") ErrIllegalIP = false.
Proof.
  destruct (@classify_malformed_code fixture.table 500 "1e3") as (H1 & _ & H3 & _);
    [lia | reflexivity |].
  split; [exact H1 | exact (proj1 (H3 "ILLEGAL_IP" ""))].
Defined.

Lemma known_kind_matches_sentinel_witness :
  Is (Wrapf "error received in response: " (@api.CheckErrorResponse fixture.table 418 "10003"))
     ErrIllegalIP = true ∧
  AsResponseError
    (Wrapf "error received in response: " (@api.CheckErrorResponse fixture.table 418 "10003"))
  = Some (10003, 418, ErrIllegalIP).
Proof.
  destruct (@known_kind_matches_sentinel fixture.table 418 10003 "10003" "ILLEGAL_IP"
              "error received in response: ") as (H1 & _ & H3 & _);
    [lia | reflexivity | reflexivity |].
  split; [exact H1 | exact H3].
Defined.

(** The error case of the GetTickers test: status 418 with code 10003 gives an
    error that matches the sentinel and the expected [ResponseError]. *)
Example GetTickers_error_response :
  ∃ err,
    (fixture.getTickers (fixture.client 418 "10003") "some instrument" fixture.w0).1
    = Error err ∧
    Is err ErrIllegalIP = true ∧
    Is err (ResponseError 10003 418 ErrIllegalIP) = true ∧
    AsResponseError err = Some (10003, 418, ErrIllegalIP).
Proof. eexists. split; [by vm_compute | by vm_compute]. Qed.

(** The success case: status 200 with code 0 hands back the payload. *)
Example GetTickers_success :
  (fixture.getTickers (fixture.client 200 "0") "some instrument" fixture.w0).1 = Ok [].
Proof. by vm_compute. Qed.

(** ** What an endpoint call does to the world *)

Section Runs.
Context `{!CodeTable, !http.URLParser}.

Lemma doRequest_world {R : Type} `{!Unmarshal R} (r : api.Requester)
    (httpMethod : string) (body : api.Request) (method : string) (w : World) :
  let w' := (api.doRequest (R:=R) r httpMethod body method w).2 in
  idCalls w' = idCalls w ∧ clockReads w' = clockReads w ∧ signed w' = signed w ∧
  sent w' =
    match api.Marshal body with
    | Error _ => sent w
    | Ok json =>
        match http.url_Parse
                (api.BaseURL r
                 ++ (if bool_decide (api.Version body = "") then api.V1 else api.Version body)
                 ++ method) with
        | Error _ => sent w
        | Ok q => (sent w ++ [wireRequest r httpMethod method body json q])%list
        end
    end.
Proof.
  unfold api.doRequest, mbind, M_bind, wrapping, lift, Do, http.NewRequestWithContext,
    wireRequest.
  cbn.
  destruct (api.Marshal body) as [json | e]; cbn; [| done].
  destruct (http.url_Parse _) as [q | e]; cbn; [| done].
  destruct (api.Client r _ _) as [res | e]; cbn; [| done].
  destruct (http.ReadAll res) as [raw | e]; cbn; [| done].
  destruct (unmarshal raw) as [resp | e]; cbn; done.
Qed.

(** The steps after the parameter map is built are the same in every private
    endpoint; this runs them. *)
Ltac run_private :=
  unfold private_run, mbind, M_bind, wrapping, GenerateSignature, Generate, Now,
    signatureRequest, envelope, api.Post;
  cbn;
  destruct (signatureGenerator _ _) as [signature | e]; cbn; [| done];
  match goal with
  | |- context [api.doRequest ?r ?hm ?b ?m ?w] =>
      let Hworld := fresh "Hworld" in
      pose proof (doRequest_world r hm b m w) as Hworld;
      destruct (api.doRequest r hm b m w) as [[[statusCode resp] | e] w3];
      cbn in Hworld; destruct Hworld as (? & ? & ? & ?)
  end;
  [ destruct (api.CheckErrorResponse _ _) | ]; cbn;
  split_and!; assumption.

Lemma GetDepositAddress_run {A : Type} `{!Unmarshal (Response (list A))}
    (c : Client) (req : getdepositaddress.GetDepositAddressRequest) (w : World) :
  private_run c getdepositaddress.methodGetDepositAddress
    (getdepositaddress.buildParams req) ""
    w (getdepositaddress.GetDepositAddress c req w).2.
Proof. unfold getdepositaddress.GetDepositAddress. run_private. Qed.

Lemma CreateWithdrawal_run {A : Type} `{!Unmarshal (Response A)}
    (c : Client) (req : createwithdrawal.CreateWithdrawalRequest) (w : World) :
  private_run c createwithdrawal.methodCreateWithdrawal
    (createwithdrawal.buildParams req) ""
    w (createwithdrawal.CreateWithdrawal c req w).2.
Proof. unfold createwithdrawal.CreateWithdrawal. run_private. Qed.

Lemma UserBalanceHistory_run {A : Type} `{!Unmarshal (Response A)}
    (c : Client) (req : userbalancehistory.UserBalanceHistoryRequest) (w : World) :
  private_run c userbalancehistory.methodUserBalanceHistory
    (userbalancehistory.buildParams req) api.V1
    w (userbalancehistory.UserBalanceHistory c req w).2.
Proof. unfold userbalancehistory.UserBalanceHistory. run_private. Qed.

Lemma GetDepositHistory_run {A : Type} `{!Unmarshal (Response (list A))}
    (c : Client) (req : getdeposithistory.GetDepositHistoryRequest) (w : World) :
  0 ≤ getdeposithistory.PageSize req ≤ 200 →
  private_run c getdeposithistory.methodGetDepositHistory
    (getdeposithistory.buildParams req) ""
    w (getdeposithistory.GetDepositHistory c req w).2.
Proof.
  intros [Hlo Hhi]. unfold getdeposithistory.GetDepositHistory.
  destruct (_ <? 0) eqn:H1; [apply Z.ltb_lt in H1; lia |].
  destruct (200 <? _) eqn:H2; [apply Z.ltb_lt in H2; lia |].
  run_private.
Qed.

Lemma GetWithdrawalHistory_run {A : Type} `{!Unmarshal (Response (list A))}
    (c : Client) (req : getwithdrawalhistory.GetWithdrawalHistoryRequest) (w : World) :
  0 ≤ getwithdrawalhistory.PageSize req ≤ 200 →
  private_run c getwithdrawalhistory.methodGetWithdrawalHistory
    (getwithdrawalhistory.buildParams req) ""
    w (getwithdrawalhistory.GetWithdrawalHistory c req w).2.
Proof.
  intros [Hlo Hhi]. unfold getwithdrawalhistory.GetWithdrawalHistory.
  destruct (_ <? 0) eqn:H1; [apply Z.ltb_lt in H1; lia |].
  destruct (200 <? _) eqn:H2; [apply Z.ltb_lt in H2; lia |].
  run_private.
Qed.

Lemma GetDepositHistory_rejected {A : Type} `{!Unmarshal (Response (list A))}
    (c : Client) (req : getdeposithistory.GetDepositHistoryRequest) (w : World) :
  getdeposithistory.PageSize req < 0 ∨ 200 < getdeposithistory.PageSize req →
  ∃ reason,
    getdeposithistory.GetDepositHistory c req w
    = (Error (InvalidParameterError "req.PageSize" reason), w).
Proof.
  intros Hout. unfold getdeposithistory.GetDepositHistory.
  destruct (_ <? 0) eqn:H1; [by eexists |].
  destruct (200 <? _) eqn:H2; [by eexists |].
  apply Z.ltb_ge in H1, H2. lia.
Qed.

Lemma GetWithdrawalHistory_rejected {A : Type} `{!Unmarshal (Response (list A))}
    (c : Client) (req : getwithdrawalhistory.GetWithdrawalHistoryRequest) (w : World) :
  getwithdrawalhistory.PageSize req < 0 ∨ 200 < getwithdrawalhistory.PageSize req →
  ∃ reason,
    getwithdrawalhistory.GetWithdrawalHistory c req w
    = (Error (InvalidParameterError "req.PageSize" reason), w).
Proof.
  intros Hout. unfold getwithdrawalhistory.GetWithdrawalHistory.
  destruct (_ <? 0) eqn:H1; [by eexists |].
  destruct (200 <? _) eqn:H2; [by eexists |].
  apply Z.ltb_ge in H1, H2. lia.
Qed.

End Runs.

(** ** The public endpoints *)

Section PublicRuns.
Context `{!CodeTable, !http.URLParser}.

Lemma GetTickers_run {A : Type} `{!Unmarshal (Response (list A))}
    (c : Client) (instrument : string) (w : World) :
  public_query_run
    (api.BaseURL (requester c) ++ api.V1 ++ getticker.methodGetTicker)
    (tickersQuery instrument)
    w (getticker.GetTickers c instrument w).2.
Proof.
  unfold getticker.GetTickers, public_query_run, tickersQuery, mbind, M_bind, wrapping,
    lift, Do, http.NewRequestWithContext.
  cbn.
  destruct (http.url_Parse _) as [q | e]; cbn; [| done].
  destruct (bool_decide (instrument = "")); cbn;
  (destruct (api.Client _ _ _) as [res | e]; cbn; [| done];
   destruct (http.ReadAll res) as [raw | e]; cbn; [| done];
   destruct (unmarshal raw) as [resp | e]; cbn; [| done];
   destruct (api.CheckErrorResponse _ _); done).
Qed.

Lemma GetBook_run {A : Type} `{!Unmarshal (Response A)}
    (c : Client) (instrument : string) (depth : Z) (w : World) :
  public_query_run
    (api.BaseURL (requester c) ++ api.V2 ++ getbook.methodGetBook)
    (bookQuery instrument depth)
    w (getbook.GetBook c instrument depth w).2.
Proof.
  unfold getbook.GetBook, public_query_run, bookQuery, mbind, M_bind, wrapping, lift, Do,
    http.NewRequestWithContext.
  cbn.
  destruct (http.url_Parse _) as [q | e]; cbn; [| done].
  destruct (api.Client _ _ _) as [res | e]; cbn; [| done].
  destruct (http.ReadAll res) as [raw | e]; cbn; [| done].
  destruct (unmarshal raw) as [resp | e]; cbn; [| done].
  destruct (api.CheckErrorResponse _ _); done.
Qed.

Lemma GetInstruments_run {A : Type} `{!Unmarshal (Response (list A))}
    (c : Client) (w : World) :
  let w' := (getinstruments.GetInstruments c w).2 in
  let url := api.BaseURL (requester c) ++ api.V1 ++ getinstruments.methodGetInstruments in
  idCalls w' = S (idCalls w) ∧
  clockReads w' = S (clockReads w) ∧
  signed w' = signed w ∧
  sent w' =
    match http.url_Parse url with
    | Error _ => sent w
    | Ok q =>
        (sent w ++ [{| http.Method := http.MethodGet; http.URL := url;
                       http.Query := q;
                       http.ContentType := "application/json";
                       http.Body := Some (instrumentsEnvelope c w) |}])%list
    end.
Proof.
  unfold getinstruments.GetInstruments, mbind, M_bind, wrapping, Generate, Now, api.Get.
  cbn.
  match goal with
  | |- context [api.doRequest ?r ?hm ?b ?m ?w1] =>
      pose proof (doRequest_world r hm b m w1) as Hworld;
      destruct (api.doRequest r hm b m w1) as [[[statusCode resp] | e] w3];
      cbn in Hworld; destruct Hworld as (? & ? & ? & ?)
  end;
  [ destruct (api.CheckErrorResponse _ _) | ]; cbn;
  split_and!; assumption.
Qed.

End PublicRuns.

(** ** The envelope on the wire *)

(** What the encoder makes of a string: ASCII and well-formed runes stay, a
    byte outside any rune becomes U+FFFD, as does each byte of a truncated or
    overlong sequence; U+FFFD itself stays. *)
Example coerce_examples :
  jsonenc.coerce "private/get-deposit-address" = "private/get-deposit-address" ∧
  jsonenc.coerce (String "195"%char (String "169"%char "")) =
    String "195"%char (String "169"%char "") ∧
  jsonenc.coerce scenario.notUTF8 = utf8.RuneError ∧
  jsonenc.coerce (String "224"%char (String "128"%char "")) =
    (utf8.RuneError ++ utf8.RuneError)%string ∧
  jsonenc.coerce ("a" ++ scenario.notUTF8 ++ "b") = ("a" ++ utf8.RuneError ++ "b")%string ∧
  jsonenc.coerce utf8.RuneError = utf8.RuneError.
Proof. by vm_compute. Qed.

Lemma marshalFields_keys (l : list (string * value)) (fs : list (string * jsonenc.Value)) :
  jsonenc.marshalFields l = Ok fs → fs.*1 = l.*1.
Proof.
  revert fs. induction l as [| [k v] l IH]; intros fs; cbn.
  - by intros [= <-].
  - destruct (jsonenc.marshalValue v) as [j | e]; [| done].
    destruct (jsonenc.marshalFields l) as [js | e]; [| done].
    intros [= <-]. cbn. f_equal. by apply IH.
Qed.

Lemma marshalMap_members (m : gmap string value) (pj : jsonenc.Value) (k : string) :
  jsonenc.marshalMap (Some m) = Ok pj →
  k ∈ jsonenc.members pj ↔ is_Some (m !! k).
Proof.
  unfold jsonenc.marshalMap.
  destruct (jsonenc.marshalFields _) as [fs | e] eqn:Hfs; [| done].
  intros [= <-]. cbn. rewrite (marshalFields_keys _ _ Hfs).
  unfold sort_keys. rewrite merge_sort_Permutation.
  rewrite list_elem_of_fmap. split.
  - intros [[k' v] [-> Hin]]. apply elem_of_map_to_list in Hin. by exists v.
  - intros [v Hv]. exists (k, v). split; [done |]. by apply elem_of_map_to_list.
Qed.

Lemma marshalFields_carried (l : list (string * value))
    (fs : list (string * jsonenc.Value)) :
  jsonenc.marshalFields l = Ok fs →
  fs = (λ kv, (kv.1, carried jsonenc.coerce kv.2)) <$> l.
Proof.
  revert fs. induction l as [| [k v] l IH]; intros fs; cbn.
  - by intros [= <-].
  - destruct (jsonenc.marshalValue v) as [j | e] eqn:Hv; [| done].
    destruct (jsonenc.marshalFields l) as [js | e]; [| done].
    intros [= <-]. rewrite <- (IH js eq_refl). do 2 f_equal.
    unfold jsonenc.marshalValue in Hv.
    destruct v as [s | n | n | f]; cbn; try (by injection Hv as <-).
    destruct (is_nan f || is_infinity f); [done | by injection Hv as <-].
Qed.

Lemma carried_kept (p : gmap string value) :
  kept_strings p →
  (λ kv : string * value, (kv.1, carried jsonenc.coerce kv.2)) <$> sort_keys (map_to_list p)
  = (λ kv, (kv.1, carried (λ s, s) kv.2)) <$> sort_keys (map_to_list p).
Proof.
  intros Hkept. apply Forall_fmap_ext, Forall_forall. intros [k v] Hin.
  unfold sort_keys in Hin. rewrite merge_sort_Permutation in Hin.
  apply elem_of_map_to_list in Hin. cbn. f_equal.
  destruct v as [s | n | n | f]; cbn; try done. f_equal. by apply (Hkept k).
Qed.

Lemma Marshal_members (r : api.Request) (env : jsonenc.Value) :
  api.Marshal r = Ok env →
  ∃ pj, jsonenc.marshalMap (api.Params r) = Ok pj ∧
        env = jsonenc.Object
                ([("id", jsonenc.Num (api.ID r));
                  ("method", jsonenc.Str (jsonenc.coerce (api.Method r)));
                  ("nonce", jsonenc.Num (api.Nonce r));
                  ("params", pj)]
                 ++ api.omitempty "sig" (api.Signature r)
                 ++ api.omitempty "api_key" (api.APIKey r)
                 ++ [("version", jsonenc.Str (jsonenc.coerce (api.Version r)))])%list.
Proof.
  unfold api.Marshal.
  destruct (jsonenc.marshalMap _) as [pj | e]; [| done].
  intros [= <-]. by exists pj.
Qed.

(** C8: in the JSON form of a request envelope the members are id, method,
    nonce, params, then sig and api_key each exactly when its string is not
    empty, then version; version is there with its value also when that is
    the empty string. *)
Theorem envelope_members (r : api.Request) (env : jsonenc.Value) :
  api.Marshal r = Ok env →
  jsonenc.members env
  = (["id"; "method"; "nonce"; "params"]
     ++ (if bool_decide (api.Signature r = "") then [] else ["sig"])
     ++ (if bool_decide (api.APIKey r = "") then [] else ["api_key"])
     ++ ["version"])%list ∧
  ("sig" ∈ jsonenc.members env ↔ api.Signature r ≠ "") ∧
  ("api_key" ∈ jsonenc.members env ↔ api.APIKey r ≠ "") ∧
  jsonenc.member "sig" env
  = (if bool_decide (api.Signature r = "") then None
     else Some (jsonenc.Str (jsonenc.coerce (api.Signature r)))) ∧
  jsonenc.member "api_key" env
  = (if bool_decide (api.APIKey r = "") then None
     else Some (jsonenc.Str (jsonenc.coerce (api.APIKey r)))) ∧
  jsonenc.member "version" env = Some (jsonenc.Str (jsonenc.coerce (api.Version r))) ∧
  jsonenc.member "id" env = Some (jsonenc.Num (api.ID r)) ∧
  jsonenc.member "method" env = Some (jsonenc.Str (jsonenc.coerce (api.Method r))) ∧
  jsonenc.member "nonce" env = Some (jsonenc.Num (api.Nonce r)) ∧
  ∃ pj, jsonenc.marshalMap (api.Params r) = Ok pj ∧ jsonenc.member "params" env = Some pj.
Proof.
  intros Henv. destruct (Marshal_members r env Henv) as (pj & Hpj & ->).
  unfold api.omitempty.
  do 2 case_bool_decide;
    (split_and!;
     [ reflexivity
     | cbn; rewrite !elem_of_cons, elem_of_nil; intuition congruence
     | cbn; rewrite !elem_of_cons, elem_of_nil; intuition congruence
     | reflexivity .. | by exists pj ]).
Qed.

Lemma Marshal_carries (sreq : auth.SignatureRequest) (signature version : string)
    (json : jsonenc.Value) :
  api.Marshal (envelope sreq signature version) = Ok json →
  carries_signed jsonenc.coerce sreq json ∧
  jsonenc.member "sig" json =
    (if bool_decide (signature = "") then None
     else Some (jsonenc.Str (jsonenc.coerce signature))).
Proof.
  intros Hjson. destruct (Marshal_members _ _ Hjson) as (pj & Hpj & ->).
  assert (pj = match auth.Params sreq with
               | None => jsonenc.Null
               | Some p =>
                   jsonenc.Object
                     ((λ kv, (kv.1, carried jsonenc.coerce kv.2))
                        <$> sort_keys (map_to_list p))
               end) as ->.
  { cbn in Hpj. unfold jsonenc.marshalMap in Hpj.
    destruct (auth.Params sreq) as [p |]; [| by injection Hpj as <-].
    destruct (jsonenc.marshalFields _) as [fs | e] eqn:Hfs; [| done].
    injection Hpj as <-. by rewrite (marshalFields_carried _ _ Hfs). }
  unfold carries_signed, api.omitempty.
  simpl (api.Signature _). simpl (api.APIKey _).
  destruct (bool_decide (signature = "")), (bool_decide (auth.APIKey sreq = ""));
    split_and!; reflexivity.
Qed.

Lemma envelope_members_witness :
  ∃ env pub,
    api.Marshal fixture.signedEnvelope = Ok env ∧
    api.Marshal fixture.publicEnvelope = Ok pub ∧
    jsonenc.members env
    = ["id"; "method"; "nonce"; "params"; "sig"; "api_key"; "version"] ∧
    jsonenc.members pub = ["id"; "method"; "nonce"; "params"; "version"] ∧
    jsonenc.member "version" pub = Some (jsonenc.Str "").
Proof.
  destruct (api.Marshal fixture.signedEnvelope) as [env | e] eqn:Henv;
    [| by vm_compute in Henv].
  destruct (api.Marshal fixture.publicEnvelope) as [pub | e] eqn:Hpub;
    [| by vm_compute in Hpub].
  destruct (envelope_members fixture.signedEnvelope env Henv) as (Hmembers & _).
  destruct (envelope_members fixture.publicEnvelope pub Hpub)
    as (Hpublic & _ & _ & _ & _ & Hversion & _).
  exists env, pub. split_and!; [reflexivity | reflexivity | exact Hmembers
                               | exact Hpublic | exact Hversion].
Defined.

(** ** From the run of a private endpoint to what is transmitted *)

Lemma app_singleton_neq {A : Type} (l : list A) (x : A) : l ≠ (l ++ [x])%list.
Proof.
  intros Heq. apply (f_equal length) in Heq. rewrite length_app in Heq. cbn in Heq. lia.
Qed.

Section Transmission.
Context `{!http.URLParser}.

Lemma private_run_transmits (c : Client) (method : string) (p : gmap string value)
    (version : string) (w w' : World) :
  private_run c method p version w w' → transmits_signed jsonenc.coerce c w w'.
Proof.
  intros (_ & _ & Hsigned & Hsent). unfold transmits_signed.
  destruct (signatureGenerator c _) as [signature | e] eqn:Hsig;
    [cbn in Hsent; destruct (api.Marshal _) as [json | e] eqn:Hjson;
     [destruct (http.url_Parse _) as [q | e] |] |];
    try (split; [by left |]; intros hreq Heq; rewrite Hsent in Heq;
         by apply app_singleton_neq in Heq).
  split; [right; by eexists |].
  intros hreq Heq. rewrite Hsent in Heq. apply app_inj_tail in Heq as [_ <-].
  destruct (Marshal_carries _ _ _ _ Hjson) as [Hcarries Hsig'].
  eexists _, signature, json.
  split_and!; [exact Hsigned | exact Hsig | reflexivity | exact Hcarries | exact Hsig'].
Qed.

Lemma transmits_signed_kept (c : Client) (method : string) (p : gmap string value)
    (w w' : World) :
  signed w' = (signed w ++ [signatureRequest c w method p])%list →
  jsonenc.coerce method = method →
  jsonenc.coerce (apiKey c) = apiKey c →
  kept_strings p →
  transmits_signed jsonenc.coerce c w w' → transmits_signed (λ s, s) c w w'.
Proof.
  intros Hsigned Hmethod Hkey Hkept [Hone Hsent]. split; [exact Hone |].
  intros hreq Heq.
  destruct (Hsent hreq Heq) as (sreq & signature & json & Hs & Hsig & Hbody & Hcarries & Hsig').
  exists sreq, signature, json. split_and!; try done.
  rewrite Hsigned in Hs. apply app_inj_tail in Hs as [_ <-].
  destruct Hcarries as (Hid & Hm & Hnonce & Hparams & Hapi). cbn in *.
  split_and!; cbn.
  - exact Hid.
  - rewrite Hm. by rewrite Hmethod.
  - exact Hnonce.
  - rewrite Hparams. do 2 f_equal. apply carried_kept. exact Hkept.
  - rewrite Hapi. by rewrite Hkey.
Qed.

Lemma private_run_transmits_exactly (c : Client) (method : string)
    (p : gmap string value) (version : string) (w w' : World) :
  private_run c method p version w w' →
  jsonenc.coerce method = method →
  jsonenc.coerce (apiKey c) = apiKey c → kept_strings p →
  transmits_signed (λ s, s) c w w'.
Proof.
  intros Hrun Hmethod Hkey Hkept.
  apply (transmits_signed_kept c method p); try done.
  - by destruct Hrun as (_ & _ & Hsigned & _).
  - by eapply private_run_transmits.
Qed.

Lemma unchanged_transmits (text : string → string) (c : Client) (w : World) :
  transmits_signed text c w w.
Proof. split; [by left |]. intros hreq Heq. by apply app_singleton_neq in Heq. Qed.


End Transmission.

(** ** The parameter maps of the history endpoints *)

Ltac in_literal := repeat first [apply list_elem_of_here | apply list_elem_of_further].

Ltac history_params_tac :=
  unfold history_params; cbn;
  repeat case_bool_decide;
  repeat match goal with |- context [time.IsZero ?t] => destruct (time.IsZero t) end;
  cbn;
  (split_and!; [by simplify_map_eq .. |]);
  intros k [v Hv];
  repeat (rewrite lookup_insert in Hv; case_decide; [subst k; in_literal |]);
  by rewrite lookup_empty in Hv.

Lemma deposit_history_params (req : getdeposithistory.GetDepositHistoryRequest) :
  history_params (getdeposithistory.Currency req) (getdeposithistory.Start req)
    (getdeposithistory.End_ req) (getdeposithistory.PageSize req)
    (getdeposithistory.Page req) (getdeposithistory.Status req)
    (getdeposithistory.buildParams req).
Proof. unfold getdeposithistory.buildParams. history_params_tac. Qed.

Lemma withdrawal_history_params (req : getwithdrawalhistory.GetWithdrawalHistoryRequest) :
  history_params (getwithdrawalhistory.Currency req) (getwithdrawalhistory.Start req)
    (getwithdrawalhistory.End_ req) (getwithdrawalhistory.PageSize req)
    (getwithdrawalhistory.Page req) (getwithdrawalhistory.Status req)
    (getwithdrawalhistory.buildParams req).
Proof. unfold getwithdrawalhistory.buildParams. history_params_tac. Qed.

(** ** The private endpoints *)

Section PrivateEndpoints.
Context `{!CodeTable, !http.URLParser}.
Context {Deposit Withdrawal DepositAddress CreateWithdrawalResult
         UserBalanceHistoryResult : Type}.
Context `{!Unmarshal (Response (list Deposit)),
          !Unmarshal (Response (list Withdrawal)),
          !Unmarshal (Response (list DepositAddress)),
          !Unmarshal (Response CreateWithdrawalResult),
          !Unmarshal (Response UserBalanceHistoryResult)}.


Lemma GetDepositHistory_transmits (c : Client) (w : World)
    (req : getdeposithistory.GetDepositHistoryRequest) :
  transmits_signed jsonenc.coerce c w
    (getdeposithistory.GetDepositHistory (Deposit:=Deposit) c req w).2 ∧
  (jsonenc.coerce (apiKey c) = apiKey c →
   kept_strings (getdeposithistory.buildParams req) →
   transmits_signed (λ s, s) c w
     (getdeposithistory.GetDepositHistory (Deposit:=Deposit) c req w).2).
Proof.
  destruct (decide (0 ≤ getdeposithistory.PageSize req ≤ 200)) as [Hin | Hout].
  - pose proof (GetDepositHistory_run (A:=Deposit) c req w Hin) as Hrun.
    split; [by eapply private_run_transmits |].
    intros Hkey Hkept. by eapply private_run_transmits_exactly.
  - destruct (GetDepositHistory_rejected (A:=Deposit) c req w) as [reason ->]; [lia |].
    split; [| intros _ _]; apply unchanged_transmits.
Qed.

Lemma GetWithdrawalHistory_transmits (c : Client) (w : World)
    (req : getwithdrawalhistory.GetWithdrawalHistoryRequest) :
  transmits_signed jsonenc.coerce c w
    (getwithdrawalhistory.GetWithdrawalHistory (Withdrawal:=Withdrawal) c req w).2 ∧
  (jsonenc.coerce (apiKey c) = apiKey c →
   kept_strings (getwithdrawalhistory.buildParams req) →
   transmits_signed (λ s, s) c w
     (getwithdrawalhistory.GetWithdrawalHistory (Withdrawal:=Withdrawal) c req w).2).
Proof.
  destruct (decide (0 ≤ getwithdrawalhistory.PageSize req ≤ 200)) as [Hin | Hout].
  - pose proof (GetWithdrawalHistory_run (A:=Withdrawal) c req w Hin) as Hrun.
    split; [by eapply private_run_transmits |].
    intros Hkey Hkept. by eapply private_run_transmits_exactly.
  - destruct (GetWithdrawalHistory_rejected (A:=Withdrawal) c req w) as [reason ->]; [lia |].
    split; [| intros _ _]; apply unchanged_transmits.
Qed.

(** C6, as amended: every private endpoint (GetDepositAddress, GetDepositHistory,
    GetWithdrawalHistory, CreateWithdrawal, UserBalanceHistory) transmits at
    most one request, and the members id, method, nonce, params and api_key of
    its body are the values of the signature request the call made as the
    JSON encoder writes them: the numbers as they are, each parameter under
    its key, every string with each byte that is not valid UTF-8 replaced by
    U+FFFD; sig is the signature the generator returned.  When the api key
    and the string parameters are valid UTF-8, the members are exactly the
    values that were signed. *)
Theorem envelope_is_what_was_signed (c : Client) (w : World)
    (reqA : getdepositaddress.GetDepositAddressRequest)
    (reqD : getdeposithistory.GetDepositHistoryRequest)
    (reqW : getwithdrawalhistory.GetWithdrawalHistoryRequest)
    (reqC : createwithdrawal.CreateWithdrawalRequest)
    (reqU : userbalancehistory.UserBalanceHistoryRequest) :
  (transmits_signed jsonenc.coerce c w
     (getdepositaddress.GetDepositAddress (DepositAddress:=DepositAddress) c reqA w).2 ∧
   transmits_signed jsonenc.coerce c w
     (getdeposithistory.GetDepositHistory (Deposit:=Deposit) c reqD w).2 ∧
   transmits_signed jsonenc.coerce c w
     (getwithdrawalhistory.GetWithdrawalHistory (Withdrawal:=Withdrawal) c reqW w).2 ∧
   transmits_signed jsonenc.coerce c w
     (createwithdrawal.CreateWithdrawal
        (CreateWithdrawalResult:=CreateWithdrawalResult) c reqC w).2 ∧
   transmits_signed jsonenc.coerce c w
     (userbalancehistory.UserBalanceHistory
        (UserBalanceHistoryResult:=UserBalanceHistoryResult) c reqU w).2) ∧
  (jsonenc.coerce (apiKey c) = apiKey c →
   (kept_strings (getdepositaddress.buildParams reqA) →
    transmits_signed (λ s, s) c w
      (getdepositaddress.GetDepositAddress (DepositAddress:=DepositAddress) c reqA w).2) ∧
   (kept_strings (getdeposithistory.buildParams reqD) →
    transmits_signed (λ s, s) c w
      (getdeposithistory.GetDepositHistory (Deposit:=Deposit) c reqD w).2) ∧
   (kept_strings (getwithdrawalhistory.buildParams reqW) →
    transmits_signed (λ s, s) c w
      (getwithdrawalhistory.GetWithdrawalHistory (Withdrawal:=Withdrawal) c reqW w).2) ∧
   (kept_strings (createwithdrawal.buildParams reqC) →
    transmits_signed (λ s, s) c w
      (createwithdrawal.CreateWithdrawal
         (CreateWithdrawalResult:=CreateWithdrawalResult) c reqC w).2) ∧
   (kept_strings (userbalancehistory.buildParams reqU) →
    transmits_signed (λ s, s) c w
      (userbalancehistory.UserBalanceHistory
         (UserBalanceHistoryResult:=UserBalanceHistoryResult) c reqU w).2)).
Proof.
  split.
  - split_and!.
    + eapply private_run_transmits, GetDepositAddress_run.
    + apply GetDepositHistory_transmits.
    + apply GetWithdrawalHistory_transmits.
    + eapply private_run_transmits, CreateWithdrawal_run.
    + eapply private_run_transmits, UserBalanceHistory_run.
  - intros Hkey. split_and!; intros Hkept.
    + eapply private_run_transmits_exactly; [apply GetDepositAddress_run | | |]; done.
    + by apply GetDepositHistory_transmits.
    + by apply GetWithdrawalHistory_transmits.
    + eapply private_run_transmits_exactly; [apply CreateWithdrawal_run | | |]; done.
    + eapply private_run_transmits_exactly; [apply UserBalanceHistory_run | | |]; done.
Qed.

(** C10: the parameter map of GetDepositHistory and of GetWithdrawalHistory
    always has the key page, with the request's Page (also when it is 0);
    currency, page_size, start_ts, end_ts and status are keys only when the
    field is non-empty or non-zero, and there is no other key.  So the map
    differs from every map without a page key, and it is the map handed to
    the signature generator whenever the page size passes the check. *)
Theorem page_is_always_signed (c : Client) (w : World)
    (reqD : getdeposithistory.GetDepositHistoryRequest)
    (reqW : getwithdrawalhistory.GetWithdrawalHistoryRequest) :
  history_params (getdeposithistory.Currency reqD) (getdeposithistory.Start reqD)
    (getdeposithistory.End_ reqD) (getdeposithistory.PageSize reqD)
    (getdeposithistory.Page reqD) (getdeposithistory.Status reqD)
    (getdeposithistory.buildParams reqD) ∧
  history_params (getwithdrawalhistory.Currency reqW) (getwithdrawalhistory.Start reqW)
    (getwithdrawalhistory.End_ reqW) (getwithdrawalhistory.PageSize reqW)
    (getwithdrawalhistory.Page reqW) (getwithdrawalhistory.Status reqW)
    (getwithdrawalhistory.buildParams reqW) ∧
  (∀ m : gmap string value, m !! "page" = None →
     getdeposithistory.buildParams reqD ≠ m ∧ getwithdrawalhistory.buildParams reqW ≠ m) ∧
  (0 ≤ getdeposithistory.PageSize reqD ≤ 200 →
   signed (getdeposithistory.GetDepositHistory (Deposit:=Deposit) c reqD w).2
   = (signed w ++ [signatureRequest c w getdeposithistory.methodGetDepositHistory
                     (getdeposithistory.buildParams reqD)])%list) ∧
  (0 ≤ getwithdrawalhistory.PageSize reqW ≤ 200 →
   signed (getwithdrawalhistory.GetWithdrawalHistory (Withdrawal:=Withdrawal) c reqW w).2
   = (signed w ++ [signatureRequest c w getwithdrawalhistory.methodGetWithdrawalHistory
                     (getwithdrawalhistory.buildParams reqW)])%list).
Proof.
  pose proof (deposit_history_params reqD) as HD.
  pose proof (withdrawal_history_params reqW) as HW.
  split_and!; [exact HD | exact HW | | |].
  - intros m Hm. destruct HD as (HpD & _), HW as (HpW & _).
    split; intros Heq; rewrite Heq in *; congruence.
  - intros Hin.
    by destruct (GetDepositHistory_run (A:=Deposit) c reqD w Hin) as (_ & _ & Hsigned & _).
  - intros Hin.
    by destruct (GetWithdrawalHistory_run (A:=Withdrawal) c reqW w Hin)
      as (_ & _ & Hsigned & _).
Qed.

End PrivateEndpoints.


Lemma kept_strings_list (p : gmap string value) :
  Forall (λ kv : string * value, carried jsonenc.coerce kv.2 = carried (λ s, s) kv.2)
    (map_to_list p) →
  kept_strings p.
Proof.
  intros Hall k s Hk. rewrite Forall_forall in Hall.
  apply elem_of_map_to_list in Hk. apply Hall in Hk. cbn in Hk. by injection Hk.
Qed.

(** C6, as stated, fails for a currency that is not valid UTF-8:
    GetDepositAddress signs the byte FF and transmits U+FFFD in its place. *)
Lemma non_utf8_parameter_counterexample :
  ∃ sreq hreq json,
    signed (@getdepositaddress.GetDepositAddress fixture.table fixture.parser string
              (fixture.decoder []) (fixture.client 200 "0")
              {| getdepositaddress.Currency := scenario.notUTF8 |} fixture.w0).2 = [sreq] ∧
    sent (@getdepositaddress.GetDepositAddress fixture.table fixture.parser string
            (fixture.decoder []) (fixture.client 200 "0")
            {| getdepositaddress.Currency := scenario.notUTF8 |} fixture.w0).2 = [hreq] ∧
    http.Body hreq = Some json ∧
    auth.Params sreq = Some {[ "currency" := VString scenario.notUTF8 ]} ∧
    jsonenc.member "params" json
    = Some (jsonenc.Object [("currency", jsonenc.Str utf8.RuneError)]) ∧
    ¬ transmits_signed (λ s, s) (fixture.client 200 "0") fixture.w0
        (@getdepositaddress.GetDepositAddress fixture.table fixture.parser string
           (fixture.decoder []) (fixture.client 200 "0")
           {| getdepositaddress.Currency := scenario.notUTF8 |} fixture.w0).2.
Proof.
  eexists _, _, _.
  split_and!; [vm_compute; reflexivity | vm_compute; reflexivity | reflexivity
              | reflexivity | vm_compute; reflexivity |].
  intros [_ Hsent].
  edestruct Hsent as (sreq & signature & json & Hs & _ & Hbody & Hcarries & _);
    [vm_compute; reflexivity |].
  apply (app_inj_tail []) in Hs as [_ <-].
  injection Hbody as <-.
  destruct Hcarries as (_ & _ & _ & Hparams & _).
  vm_compute in Hparams. discriminate Hparams.
Qed.

Lemma envelope_is_what_was_signed_witness :
  jsonenc.coerce (apiKey (fixture.client 200 "0")) = apiKey (fixture.client 200 "0") ∧
  kept_strings (getdeposithistory.buildParams (fixture.depositRequest "BTC" 0 0)) ∧
  ∃ sreq hreq json,
    signed (fixture.getDepositHistory (fixture.client 200 "0")
              (fixture.depositRequest "BTC" 0 0) fixture.w0).2 = [sreq] ∧
    sent (fixture.getDepositHistory (fixture.client 200 "0")
            (fixture.depositRequest "BTC" 0 0) fixture.w0).2 = [hreq] ∧
    http.Body hreq = Some json ∧
    auth.Params sreq = Some {[ "currency" := VString "BTC"; "page" := VInt 0 ]} ∧
    carries_signed (λ s, s) sreq json ∧
    jsonenc.member "params" json
    = Some (jsonenc.Object [("currency", jsonenc.Str "BTC"); ("page", jsonenc.Num 0)]).
Proof.
  assert (kept_strings (getdeposithistory.buildParams (fixture.depositRequest "BTC" 0 0)))
    as Hkept by (apply kept_strings_list; vm_compute; repeat constructor).
  split_and!; [reflexivity | exact Hkept |].
  destruct (@envelope_is_what_was_signed fixture.table fixture.parser
              string string string string string
              (fixture.decoder []) (fixture.decoder []) (fixture.decoder [])
              (fixture.decoder "") (fixture.decoder "")
              (fixture.client 200 "0") fixture.w0
              scenario.addressRequest
              (fixture.depositRequest "BTC" 0 0)
              (fixture.withdrawalRequest "BTC" 0 0)
              (scenario.withdrawal 1%float)
              (scenario.balanceRequest 0))
    as (_ & Hexact).
  destruct (Hexact eq_refl) as (_ & Hdeposit & _).
  destruct (Hdeposit Hkept) as [_ Hsent].
  edestruct Hsent as (sreq & signature & json & Hs & _ & Hbody & Hcarries & _);
    [vm_compute; reflexivity |].
  exists sreq. eexists _, json.
  split_and!; [exact Hs | vm_compute; reflexivity | exact Hbody | | exact Hcarries |].
  - apply (app_inj_tail []) in Hs as [_ <-]. reflexivity.
  - destruct Hcarries as (_ & _ & _ & Hparams & _).
    apply (app_inj_tail []) in Hs as [_ <-]. exact Hparams.
Defined.

Lemma page_is_always_signed_witness :
  getdeposithistory.buildParams (fixture.depositRequest "BTC" 0 0) !! "page"
  = Some (VInt 0) ∧
  getdeposithistory.buildParams (fixture.depositRequest "BTC" 0 0)
  ≠ {[ "currency" := VString "BTC" ]} ∧
  signed (fixture.getDepositHistory (fixture.client 200 "0")
            (fixture.depositRequest "BTC" 0 0) fixture.w0).2
  = [signatureRequest (fixture.client 200 "0") fixture.w0
       getdeposithistory.methodGetDepositHistory
       (getdeposithistory.buildParams (fixture.depositRequest "BTC" 0 0))].
Proof.
  destruct (@page_is_always_signed fixture.table fixture.parser
              string string (fixture.decoder []) (fixture.decoder [])
              (fixture.client 200 "0") fixture.w0
              (fixture.depositRequest "BTC" 0 0)
              (fixture.withdrawalRequest "BTC" 0 0))
    as ((Hpage & _) & _ & Hdiffers & Hsigned & _).
  split_and!.
  - exact Hpage.
  - apply (Hdiffers {[ "currency" := VString "BTC" ]}). reflexivity.
  - apply Hsigned. cbn. lia.
Defined.

(** ** The public endpoints on the wire *)

Lemma Add_lookup (key val : string) (q : http.Values) :
  http.Add key val q !! key = Some (default [] (q !! key) ++ [val])%list.
Proof. unfold http.Add. apply lookup_insert_eq. Qed.

Lemma Add_elem (key val : string) (q : http.Values) :
  val ∈ default [] (http.Add key val q !! key).
Proof. rewrite Add_lookup. cbn. apply elem_of_app. right. apply list_elem_of_here. Qed.

Section PublicEndpoints.
Context `{!CodeTable, !http.URLParser}.
Context {Instrument BookResult Ticker : Type}.
Context `{!Unmarshal (Response (list Instrument)),
          !Unmarshal (Response BookResult),
          !Unmarshal (Response (list Ticker))}.

(** C5, as amended: GetBook and GetTickers generate no id, read no clock, make
    no signature request and send at most one request, a GET without a body
    whose URL query holds the parameters (instrument_name, and depth when it
    is positive; GetTickers leaves the query as it is for an empty
    instrument).  GetInstruments, which has no parameters, makes no signature
    request either and sends at most one GET, with the URL's query untouched
    and with the JSON envelope as its body: id, method, nonce, params null and
    version, without sig and api_key. *)
Theorem public_endpoints_on_the_wire (c : Client) (w : World)
    (instrument : string) (depth : Z) :
  public_query_run
    (api.BaseURL (requester c) ++ api.V1 ++ getticker.methodGetTicker)
    (tickersQuery instrument)
    w (getticker.GetTickers (Ticker:=Ticker) c instrument w).2 ∧
  public_query_run
    (api.BaseURL (requester c) ++ api.V2 ++ getbook.methodGetBook)
    (bookQuery instrument depth)
    w (getbook.GetBook (BookResult:=BookResult) c instrument depth w).2 ∧
  (∀ q, (instrument ≠ "" →
         instrument ∈ default [] (tickersQuery instrument q !! "instrument_name")) ∧
        (instrument = "" → tickersQuery instrument q = q) ∧
        instrument ∈ default [] (bookQuery instrument depth q !! "instrument_name") ∧
        (0 < depth → pretty depth ∈ default [] (bookQuery instrument depth q !! "depth")) ∧
        (depth ≤ 0 → bookQuery instrument depth q = http.Add "instrument_name" instrument q)) ∧
  (let w' := (getinstruments.GetInstruments (Instrument:=Instrument) c w).2 in
   let url := api.BaseURL (requester c) ++ api.V1 ++ getinstruments.methodGetInstruments in
   signed w' = signed w ∧
   sent w' =
     match http.url_Parse url with
     | Error _ => sent w
     | Ok q =>
         (sent w ++ [{| http.Method := http.MethodGet; http.URL := url;
                        http.Query := q;
                        http.ContentType := "application/json";
                        http.Body := Some (instrumentsEnvelope c w) |}])%list
     end) ∧
  jsonenc.members (instrumentsEnvelope c w) = ["id"; "method"; "nonce"; "params"; "version"] ∧
  jsonenc.member "sig" (instrumentsEnvelope c w) = None ∧
  jsonenc.member "api_key" (instrumentsEnvelope c w) = None ∧
  jsonenc.member "params" (instrumentsEnvelope c w) = Some jsonenc.Null.
Proof.
  split_and!.
  - apply GetTickers_run.
  - apply GetBook_run.
  - intros q. unfold tickersQuery, bookQuery. split_and!.
    + intros Hne. rewrite bool_decide_eq_false_2 by done. apply Add_elem.
    + intros ->. done.
    + destruct (0 <? depth).
      * unfold http.Add at 1. rewrite lookup_insert_ne by done. apply Add_elem.
      * apply Add_elem.
    + intros Hpos. apply Z.ltb_lt in Hpos. rewrite Hpos. apply Add_elem.
    + intros Hle. destruct (0 <? depth) eqn:Hd; [apply Z.ltb_lt in Hd; lia | done].
  - pose proof (GetInstruments_run (A:=Instrument) c w) as (_ & _ & Hsigned & Hsent).
    split; [exact Hsigned | exact Hsent].
  - reflexivity.
  - reflexivity.
  - reflexivity.
  - reflexivity.
Qed.

End PublicEndpoints.

(** C5, as stated, fails for GetInstruments: its GET request has a body. *)
Lemma GetInstruments_body_counterexample :
  ¬ (∀ hreq,
       hreq ∈ sent (fixture.getInstruments (fixture.client 200 "0") fixture.w0).2 →
       http.Method hreq = http.MethodGet ∧ http.Body hreq = None).
Proof.
  intros Hnone.
  assert (∃ hreq,
            hreq ∈ sent (fixture.getInstruments (fixture.client 200 "0") fixture.w0).2 ∧
            http.Body hreq ≠ None) as (hreq & Hin & Hbody).
  { eexists. split.
    - vm_compute. apply list_elem_of_here.
    - discriminate. }
  destruct (Hnone hreq Hin) as [_ Habsent]. contradiction.
Qed.

Lemma public_endpoints_on_the_wire_witness :
  "BTC_USDT"
  ∈ default [] (tickersQuery "BTC_USDT" ∅ !! "instrument_name") ∧
  "5" ∈ default [] (bookQuery "BTC_USDT" 5 ∅ !! "depth") ∧
  sent (fixture.getTickers (fixture.client 200 "0") "BTC_USDT" fixture.w0).2
  = [{| http.Method := "GET";
        http.URL := "https://api.crypto.com/v2/exchange/v1/public/get-tickers";
        http.Query := {[ "instrument_name" := ["BTC_USDT"] ]};
        http.ContentType := "application/json";
        http.Body := None |}].
Proof.
  destruct (@public_endpoints_on_the_wire fixture.table fixture.parser
              string string string (fixture.decoder []) (fixture.decoder "")
              (fixture.decoder []) (fixture.client 200 "0") fixture.w0 "BTC_USDT" 5)
    as ((_ & _ & _ & Hsent) & _ & Hquery & _).
  destruct (Hquery ∅) as (Hname & _ & _ & Hdepth & _).
  split_and!.
  - apply Hname. discriminate.
  - apply Hdepth. lia.
  - exact Hsent.
Defined.

(** ** The canonical parameter string *)

#[export] Instance key_le_total {A : Type} : Total (@key_le A).
Proof.
  intros a b. unfold key_le.
  destruct (String.leb_total a.1 b.1) as [H | H]; rewrite H; [by left | by right].
Qed.

Lemma ascii_compare_lt_trans (a b c : ascii) :
  Ascii.compare a b = Lt → Ascii.compare b c = Lt → Ascii.compare a c = Lt.
Proof.
  unfold Ascii.compare. rewrite !N.compare_lt_iff. lia.
Qed.

Lemma string_compare_lt_trans (s1 s2 s3 : string) :
  String.compare s1 s2 = Lt → String.compare s2 s3 = Lt → String.compare s1 s3 = Lt.
Proof.
  revert s2 s3. induction s1 as [| a s1 IH]; intros [| b s2] [| c s3]; cbn; try done.
  destruct (Ascii.compare a b) eqn:Hab; [| | done];
    destruct (Ascii.compare b c) eqn:Hbc; try done.
  - apply Ascii.compare_eq_iff in Hab as ->. rewrite Hbc. apply IH.
  - apply Ascii.compare_eq_iff in Hab as ->. by rewrite Hbc.
  - apply Ascii.compare_eq_iff in Hbc as <-. by rewrite Hab.
  - by rewrite (ascii_compare_lt_trans a b c).
Qed.

Lemma string_leb_trans (s1 s2 s3 : string) :
  String.leb s1 s2 → String.leb s2 s3 → String.leb s1 s3.
Proof.
  unfold String.leb.
  destruct (String.compare s1 s2) eqn:H12; [| | done]; intros _.
  - apply String.compare_eq_iff in H12 as ->. done.
  - destruct (String.compare s2 s3) eqn:H23; [| | done]; intros _.
    + apply String.compare_eq_iff in H23 as <-. by rewrite H12.
    + by rewrite (string_compare_lt_trans s1 s2 s3).
Qed.

#[export] Instance key_le_trans {A : Type} : Transitive (@key_le A).
Proof. intros a b c. apply string_leb_trans. Qed.

Lemma sort_keys_unique {A : Type} (l1 l2 : list (string * A)) :
  NoDup l1.*1 → l1 ≡ₚ l2 → sort_keys l1 = sort_keys l2.
Proof.
  intros Hnodup Hperm.
  apply (Sorted_unique_strong key_le).
  - intros x1 x2 Hx1 Hx2 H12 H21.
    unfold sort_keys in Hx1, Hx2. rewrite merge_sort_Permutation in Hx1, Hx2.
    rewrite <- Hperm in Hx2.
    assert (x1.1 = x2.1) as Hkey.
    { apply String.leb_antisym; by apply Is_true_true. }
    destruct x1 as [k v1], x2 as [k' v2]. cbn in Hkey. subst k'.
    f_equal.
    pose proof (elem_of_list_to_map_1 (M:=gmap string) l1 k v1 Hnodup Hx1) as H1.
    pose proof (elem_of_list_to_map_1 (M:=gmap string) l1 k v2 Hnodup Hx2) as H2.
    congruence.
  - apply (Sorted_merge_sort key_le).
  - apply (Sorted_merge_sort key_le).
  - unfold sort_keys. by rewrite !merge_sort_Permutation.
Qed.

Lemma sort_keys_sorted {A : Type} (l : list (string * A)) :
  Sorted key_le (sort_keys l) ∧ sort_keys l ≡ₚ l.
Proof.
  split; [apply (Sorted_merge_sort key_le) | apply merge_sort_Permutation].
Qed.

Lemma canonicalize_insertion_order (entries entries' : list (string * auth.Param)) :
  NoDup entries.*1 → entries ≡ₚ entries' →
  auth.canonicalize entries = auth.canonicalize entries'.
Proof.
  intros Hnodup Hperm. unfold auth.canonicalize. f_equal. f_equal.
  apply sort_keys_unique.
  - rewrite <- list_fmap_compose.
    by replace ((fst ∘ (λ kv : string * auth.Param, (kv.1, auth.text kv.2))) <$> entries)
      with (entries.*1) by (by apply list_fmap_ext).
  - by apply fmap_Permutation.
Qed.

(** C1: the parameters currency = BTC, page = 0 canonicalize to
    currencyBTCpage0 in either insertion order, also when the map is the one
    GetDepositHistory builds; the signing input for that request is method,
    id, api key, canonical string and nonce put together without separators.
    For every parameter mapping the canonical string is the concatenation,
    over the entries in ascending bytewise key order, of each key directly
    followed by the text of its value; a nested mapping is rendered by the
    same rule, an array by its elements in their own order; and the order in
    which distinct keys were inserted does not change the string. *)
Theorem canonical_string_sorts_keys :
  auth.canonicalize [("currency", auth.PString "BTC"); ("page", auth.PNumber 0)]
  = "currencyBTCpage0" ∧
  auth.canonicalize [("page", auth.PNumber 0); ("currency", auth.PString "BTC")]
  = "currencyBTCpage0" ∧
  auth.canonicalize
    <$> auth.ofParams (getdeposithistory.buildParams (fixture.depositRequest "BTC" 0 0))
  = Some "currencyBTCpage0" ∧
  auth.sigPayload "private/get-deposit-history" 1 "k"
    [("currency", auth.PString "BTC"); ("page", auth.PNumber 0)] 1668066540018
  = "private/get-deposit-history" ++ "1" ++ "k" ++ "currencyBTCpage0" ++ "1668066540018" ∧
  (∀ entries : list (string * auth.Param),
     ∃ sorted : list (string * option string),
       sorted ≡ₚ map (λ kv, (kv.1, auth.text kv.2)) entries ∧
       Sorted key_le sorted ∧
       auth.canonicalize entries = auth.join (map auth.entry_text sorted)) ∧
  (∀ (key : string) (v : auth.Param) (t : string),
     auth.text v = Some t → auth.entry_text (key, auth.text v) = key ++ t) ∧
  (∀ entries : list (string * auth.Param),
     auth.text (auth.PMapping entries) = Some (auth.canonicalize entries)) ∧
  (∀ elems : list auth.Param,
     auth.text (auth.PArray elems)
     = Some (auth.join (map (λ x, default "" (auth.text x)) elems))) ∧
  (∀ entries entries' : list (string * auth.Param),
     NoDup entries.*1 → entries ≡ₚ entries' →
     auth.canonicalize entries = auth.canonicalize entries') ∧
  (∀ method id apiKey entries nonce,
     auth.sigPayload method id apiKey entries nonce
     = method ++ pretty id ++ apiKey ++ auth.canonicalize entries ++ pretty nonce).
Proof.
  split_and!.
  - by vm_compute.
  - by vm_compute.
  - by vm_compute.
  - by vm_compute.
  - intros entries.
    exists (sort_keys (map (λ kv, (kv.1, auth.text kv.2)) entries)).
    destruct (sort_keys_sorted (map (λ kv, (kv.1, auth.text kv.2)) entries)) as [Hs Hp].
    split_and!; [exact Hp | exact Hs | reflexivity].
  - intros key v t Ht. unfold auth.entry_text. cbn. by rewrite Ht.
  - intros entries. reflexivity.
  - intros elems. reflexivity.
  - apply canonicalize_insertion_order.
  - reflexivity.
Qed.

Lemma canonical_string_sorts_keys_witness :
  auth.entry_text ("page", auth.text (auth.PNumber 0)) = "page0" ∧
  auth.canonicalize
    [("status", auth.PString "1"); ("page", auth.PNumber 0); ("currency", auth.PString "BTC")]
  = auth.canonicalize
      [("page", auth.PNumber 0); ("currency", auth.PString "BTC"); ("status", auth.PString "1")].
Proof.
  destruct canonical_string_sorts_keys as (_ & _ & _ & _ & _ & Hentry & _ & _ & Horder & _).
  split.
  - apply (Hentry "page" (auth.PNumber 0) "0"). reflexivity.
  - apply Horder.
    + apply (bool_decide_unpack _). by vm_compute.
    + apply (Permutation_cons_append
               [("page", auth.PNumber 0); ("currency", auth.PString "BTC")]).
Defined.

(** * Further properties of the code *)

(** ** Configuration *)

Lemma exported_step (o : config.ClientOption) (c c' : Client) (err : error) :
  config.exported o → o c = (c', err) →
  config.APIKey c' = config.APIKey c ∧
  config.SecretKey c' = config.SecretKey c ∧
  (config.BaseURL c ≠ "" → config.BaseURL c' ≠ "") ∧
  (err ≠ nil → c' = c).
Proof.
  intros Ho Hrun. destruct Ho as [| | [h |] | [g |] | [g |] | [k |] | url]; cbn in Hrun;
    try (injection Hrun as <- <-; by split_and!).
  unfold config.WithBaseURL in Hrun. case_bool_decide as Hurl; injection Hrun as <- <-.
  - by split_and!.
  - split_and!; [done | done | by intros _ | done].
Qed.

Lemma applyOptions_exported (opts : list config.ClientOption) (c c' : Client) (err : error) :
  Forall config.exported opts → config.applyOptions opts c = (c', err) →
  config.APIKey c' = config.APIKey c ∧
  config.SecretKey c' = config.SecretKey c ∧
  (config.BaseURL c ≠ "" → config.BaseURL c' ≠ "").
Proof.
  intros Hall. revert c. induction Hall as [| o opts Ho Hall IH]; intros c Hrun; cbn in Hrun.
  - by injection Hrun as <- <-.
  - destruct (o c) as [c1 e1] eqn:Ho1.
    destruct (exported_step o c c1 e1 Ho Ho1) as (Hk & Hs & Hu & _).
    assert (config.APIKey c' = config.APIKey c1 ∧
            config.SecretKey c' = config.SecretKey c1 ∧
            (config.BaseURL c1 ≠ "" → config.BaseURL c' ≠ "")) as (Hk' & Hs' & Hu').
    { destruct e1; try (injection Hrun as <- <-; by split_and!). by apply IH. }
    split_and!; [congruence | congruence | auto].
Qed.

Lemma applyOptions_app (opts1 opts2 : list config.ClientOption) (c : Client) :
  config.applyOptions (opts1 ++ opts2)%list c =
    match config.applyOptions opts1 c with
    | (c1, nil) => config.applyOptions opts2 c1
    | (c1, err) => (c1, err)
    end.
Proof.
  revert c. induction opts1 as [| o opts1 IH]; intros c; cbn.
  - done.
  - destruct (o c) as [c1 e1]. destruct e1; first [apply IH | done].
Qed.

(** X1: a client that [New] hands out, built with the package's own options,
    has the keys it was given, both non-empty, and a non-empty base URL. *)
Theorem New_client_is_configured `{!config.Defaults} (apiKey secretKey : string)
    (opts : list config.ClientOption) (c : Client) :
  Forall config.exported opts →
  config.New apiKey secretKey opts = Ok c →
  config.APIKey c = apiKey ∧ config.SecretKey c = secretKey ∧
  apiKey ≠ "" ∧ secretKey ≠ "" ∧ config.BaseURL c ≠ "".
Proof.
  intros Hall. unfold config.New, config.UpdateConfig.
  case_bool_decide as Hkey; [done |]. case_bool_decide as Hsecret; [done |].
  destruct (config.applyOptions _ _) as [c1 e1] eqn:Hrun.
  destruct (applyOptions_exported _ _ _ _ Hall Hrun) as (Hk & Hs & Hu).
  destruct e1; try done. intros [= <-].
  split_and!; [exact Hk | exact Hs | done | done | by apply Hu].
Qed.

(** X2: [UpdateConfig] is not all-or-nothing.  When it fails on a key, the
    client is as before; when it fails in an option of the package, the client
    already holds the new keys. *)
Theorem UpdateConfig_failure_is_partial (apiKey secretKey : string)
    (opts : list config.ClientOption) (c c' : Client) (err : error) :
  Forall config.exported opts →
  config.UpdateConfig apiKey secretKey opts c = (c', err) → err ≠ nil →
  (apiKey = "" ∨ secretKey = "" → c' = c) ∧
  (apiKey ≠ "" → secretKey ≠ "" →
   config.APIKey c' = apiKey ∧ config.SecretKey c' = secretKey).
Proof.
  intros Hall Hrun Herr. unfold config.UpdateConfig in Hrun.
  case_bool_decide as Hkey; [injection Hrun as <- <-; split; [done | by intros ?] |].
  case_bool_decide as Hsecret; [injection Hrun as <- <-; split; [done | by intros ? ?] |].
  destruct (applyOptions_exported _ _ _ _ Hall Hrun) as (Hk & Hs & _).
  split; [by intros [? | ?] | by intros _ _].
Qed.

Lemma applyOptions_keeps_url (opts : list config.ClientOption) (c c' : Client)
    (err : error) :
  Forall keeps_url opts → config.applyOptions opts c = (c', err) →
  config.BaseURL c' = config.BaseURL c.
Proof.
  intros Hall. revert c. induction Hall as [| o opts Ho Hall IH]; intros c Hrun; cbn in Hrun.
  - by injection Hrun as <- <-.
  - destruct Ho as [[h |] | [g |] | [g |] | [k |]]; cbn in Hrun;
      first [by injection Hrun as <- <- | by rewrite (IH _ Hrun)].
Qed.

Lemma New_last_option `{!config.Defaults} (apiKey secretKey : string)
    (opts : list config.ClientOption) (o : config.ClientOption) (c : Client) :
  config.New apiKey secretKey (opts ++ [o]) = Ok c → ∃ c1, o c1 = (c, nil).
Proof.
  unfold config.New, config.UpdateConfig.
  case_bool_decide; [done |]. case_bool_decide; [done |].
  rewrite applyOptions_app.
  destruct (config.applyOptions opts _) as [c1 e1].
  destruct e1; try done. cbn.
  destruct (o c1) as [c2 e2] eqn:Ho. destruct e2; try done.
  intros [= <-]. by exists c1.
Qed.

(** X3: the base URL of a new client is the production URL unless an option
    sets another one, and of several options the last one decides. *)
Theorem New_base_url `{!config.Defaults} (apiKey secretKey url : string)
    (opts : list config.ClientOption) (c : Client) :
  (Forall keeps_url opts → config.New apiKey secretKey opts = Ok c →
   config.BaseURL c = productionBaseURL) ∧
  (config.New apiKey secretKey (opts ++ [config.WithUATEnvironment]) = Ok c →
   config.BaseURL c = uatSandboxBaseURL) ∧
  (config.New apiKey secretKey (opts ++ [config.WithProductionEnvironment]) = Ok c →
   config.BaseURL c = productionBaseURL) ∧
  (config.New apiKey secretKey (opts ++ [config.WithBaseURL url]) = Ok c →
   config.BaseURL c = url ∧ url ≠ "").
Proof.
  split_and!.
  - intros Hall. unfold config.New, config.UpdateConfig.
    case_bool_decide; [done |]. case_bool_decide; [done |].
    destruct (config.applyOptions _ _) as [c1 e1] eqn:Hrun.
    apply (applyOptions_keeps_url _ _ _ _ Hall) in Hrun.
    destruct e1; try done. by intros [= <-].
  - intros Hnew. apply New_last_option in Hnew as [c1 Hlast].
    by injection Hlast as <-.
  - intros Hnew. apply New_last_option in Hnew as [c1 Hlast].
    by injection Hlast as <-.
  - intros Hnew. apply New_last_option in Hnew as [c1 Hlast].
    unfold config.WithBaseURL in Hlast. case_bool_decide; [done |].
    by injection Hlast as <-.
Qed.

Lemma New_client_is_configured_witness :
  ∃ c, @config.New scenario.defaults "k" "s"
         [config.WithUATEnvironment; config.WithBaseURL "https://localhost/"] = Ok c ∧
       config.APIKey c = "k" ∧ config.SecretKey c = "s" ∧ config.BaseURL c ≠ "".
Proof.
  destruct (@config.New scenario.defaults "k" "s"
              [config.WithUATEnvironment; config.WithBaseURL "https://localhost/"])
    as [c | e] eqn:Hnew; [| by vm_compute in Hnew].
  exists c. split; [reflexivity |].
  destruct (@New_client_is_configured scenario.defaults "k" "s"
              [config.WithUATEnvironment; config.WithBaseURL "https://localhost/"] c)
    as (Hk & Hs & _ & _ & Hu);
    [repeat constructor | exact Hnew |].
  by split_and!.
Defined.

Lemma UpdateConfig_failure_is_partial_witness :
  (config.UpdateConfig "" "s2" [config.WithUATEnvironment] (fixture.client 200 "0")).1
  = fixture.client 200 "0" ∧
  config.APIKey
    (config.UpdateConfig "k2" "s2" [config.WithUATEnvironment; config.WithBaseURL ""]
       (fixture.client 200 "0")).1 = "k2".
Proof.
  split.
  - refine (proj1 (UpdateConfig_failure_is_partial "" "s2" [config.WithUATEnvironment]
                     (fixture.client 200 "0") _ _ _ _ _) _);
      [repeat constructor | reflexivity | discriminate | by left].
  - refine (proj1 (proj2 (UpdateConfig_failure_is_partial "k2" "s2"
                            [config.WithUATEnvironment; config.WithBaseURL ""]
                            (fixture.client 200 "0") _ _ _ _ _) _ _));
      [repeat constructor | reflexivity | discriminate | discriminate | discriminate].
Defined.

Lemma New_base_url_witness :
  ∃ c1 c2,
    @config.New scenario.defaults "k" "s" [config.WithClock (Some (λ _, fixture.instant))]
    = Ok c1 ∧ config.BaseURL c1 = productionBaseURL ∧
    @config.New scenario.defaults "k" "s"
      [config.WithBaseURL "https://localhost/"; config.WithUATEnvironment] = Ok c2 ∧
    config.BaseURL c2 = uatSandboxBaseURL.
Proof.
  destruct (@config.New scenario.defaults "k" "s"
              [config.WithClock (Some (λ _, fixture.instant))])
    as [c1 | e] eqn:Hnew1; [| by vm_compute in Hnew1].
  destruct (@config.New scenario.defaults "k" "s"
              [config.WithBaseURL "https://localhost/"; config.WithUATEnvironment])
    as [c2 | e] eqn:Hnew2; [| by vm_compute in Hnew2].
  exists c1, c2. split_and!; [reflexivity | | reflexivity |].
  - apply (proj1 (@New_base_url scenario.defaults "k" "s" ""
                    [config.WithClock (Some (λ _, fixture.instant))] c1));
      [repeat constructor | exact Hnew1].
  - apply (proj1 (proj2 (@New_base_url scenario.defaults "k" "s" ""
                           [config.WithBaseURL "https://localhost/"] c2))).
    exact Hnew2.
Defined.

(** ** Errors keep their cause *)

Lemma is_chain_refl (e : error) : is_chain e e = true.
Proof. destruct e; cbn; by rewrite bool_decide_eq_true_2. Qed.

Lemma is_chain_Wrapf (prefix : string) (err target : error) :
  err ≠ nil → is_chain err target = true → is_chain (Wrapf prefix err) target = true.
Proof.
  intros Hne Hchain. cbn. destruct err; [done | ..]; rewrite Hchain; apply orb_true_r.
Qed.

Lemma Is_is_chain (err target : error) :
  err ≠ nil → target ≠ nil → Is err target = is_chain err target.
Proof. intros Herr Htarget. by destruct err, target. Qed.

Lemma reaches_Wrapf (prefix : string) (e : error) : reaches (Wrapf prefix e) e.
Proof.
  split_and!; [done | | done].
  intros Hne. rewrite Is_is_chain by done.
  cbn. destruct e; [done | ..]; rewrite is_chain_refl; apply orb_true_r.
Qed.

Lemma reaches_wrapped (prefix : string) (err e : error) :
  reaches err e → reaches (Wrapf prefix err) e.
Proof.
  intros (Herr & HIs & HAs). split_and!; [done | | done].
  intros Hne. rewrite Is_is_chain by done. apply is_chain_Wrapf; [done |].
  rewrite <- Is_is_chain by done. by apply HIs.
Qed.

(** ** What comes back from an exchange *)

Section Exchange.
Context `{!CodeTable, !http.URLParser}.

Lemma doRequest_exchanged {R : Type} `{!Unmarshal R} (r : api.Requester)
    (httpMethod : string) (body : api.Request) (method : string) (w : World) :
  exchanged r w (api.doRequest (R:=R) r httpMethod body method w).
Proof.
  unfold exchanged, api.doRequest, mbind, M_bind, wrapping, lift, Do,
    http.NewRequestWithContext.
  cbn. intros hreq.
  destruct (api.Marshal body) as [json | e]; cbn;
    [| intros Heq; by apply app_singleton_neq in Heq].
  destruct (http.url_Parse _) as [q | e]; cbn;
    [| intros Heq; by apply app_singleton_neq in Heq].
  destruct (api.Client r (sent w) _) as [res | e] eqn:Hdo; cbn;
    [destruct (http.ReadAll res) as [raw | e] eqn:Hread; cbn;
     [destruct (unmarshal raw) as [resp | e] eqn:Hdecode; cbn |] |];
    intros Heq; apply app_inj_tail in Heq as [_ <-]; cbn; rewrite Hdo;
    rewrite ?Hread; rewrite ?Hdecode;
    first [done | eexists; split; [done | apply reaches_Wrapf]].
Qed.

Lemma doRequest_returns {R : Type} `{!Unmarshal R} (r : api.Requester)
    (httpMethod : string) (body : api.Request) (method : string) (w : World)
    (statusCode : Z) (response : R) :
  (api.doRequest r httpMethod body method w).1 = Ok (statusCode, response) →
  ∃ hreq res raw,
    sent (api.doRequest (R:=R) r httpMethod body method w).2 = (sent w ++ [hreq])%list ∧
    api.Client r (sent w) hreq = Ok res ∧
    http.ReadAll res = Ok raw ∧
    unmarshal raw = Ok response ∧
    statusCode = http.StatusCode res.
Proof.
  unfold api.doRequest, mbind, M_bind, wrapping, lift, Do, http.NewRequestWithContext.
  cbn.
  destruct (api.Marshal body) as [json | e]; cbn; [| done].
  destruct (http.url_Parse _) as [q | e]; cbn; [| done].
  destruct (api.Client r (sent w) _) as [res | e] eqn:Hdo; cbn; [| done].
  destruct (http.ReadAll res) as [raw | e] eqn:Hread; cbn; [| done].
  destruct (unmarshal raw) as [resp | e] eqn:Hdecode; cbn; [| done].
  intros [= <- <-]. by eexists _, res, raw.
Qed.

End Exchange.

(** ** What an endpoint hands back *)

Section Outcomes.
Context `{!CodeTable, !http.URLParser}.

Lemma classified_payload {R : Type} (statusCode : Z) (resp : Response R) (w : World)
    (payload : R) :
  (match api.CheckErrorResponse statusCode (api.Code (Base resp)) with
   | nil => mret (Result resp)
   | err => fail (Wrapf "error received in response: " err)
   end w).1 = Ok payload →
  statusCode < 400 ∧ payload = Result resp.
Proof.
  destruct (api.CheckErrorResponse _ _) eqn:Hcheck; try done.
  intros [= <-]. split; [by apply CheckErrorResponse_nil_iff in Hcheck | done].
Qed.

Lemma classified_world {R : Type} (statusCode : Z) (resp : Response R) (w : World) :
  (match api.CheckErrorResponse statusCode (api.Code (Base resp)) with
   | nil => mret (Result resp)
   | err => fail (Wrapf "error received in response: " err)
   end w).2 = w.
Proof. by destruct (api.CheckErrorResponse _ _). Qed.

Lemma classified_result {R : Type} (statusCode : Z) (resp : Response R) (w : World) :
  (match api.CheckErrorResponse statusCode (api.Code (Base resp)) with
   | nil => mret (Result resp)
   | err => fail (Wrapf "error received in response: " err)
   end w).1 =
  match api.CheckErrorResponse statusCode (api.Code (Base resp)) with
  | nil => Ok (Result resp)
  | err => Error (Wrapf "error received in response: " err)
  end.
Proof. by destruct (api.CheckErrorResponse _ _). Qed.

(** The part of an endpoint after [Post] or [Get] returned [reply]. *)
Lemma answered_through_doRequest {R : Type} `{!Unmarshal (Response R)} (c : Client)
    (prefix : string) (w w1 : World) (reply : result (Z * Response R) * World) :
  sent w1 = sent w →
  exchanged (requester c) w1 reply →
  (∀ statusCode resp, reply.1 = Ok (statusCode, resp) →
     ∃ hreq res raw,
       sent reply.2 = (sent w1 ++ [hreq])%list ∧
       api.Client (requester c) (sent w1) hreq = Ok res ∧
       http.ReadAll res = Ok raw ∧
       unmarshal raw = Ok resp ∧
       statusCode = http.StatusCode res) →
  let out :=
    match reply with
    | (Ok (statusCode, resp), w') =>
        match api.CheckErrorResponse statusCode (api.Code (Base resp)) with
        | nil => mret (Result resp)
        | err => fail (Wrapf "error received in response: " err)
        end w'
    | (Error e, w') => (Error (Wrapf prefix e), w')
    end in
  answered c w out ∧ payload_only_from_answer c w out.
Proof.
  intros Hsent Hex Hret out. subst out.
  destruct reply as [[[statusCode resp] | e] w'].
  - split.
    + intros hreq. rewrite classified_world, classified_result, <- Hsent. intros Heq.
      specialize (Hex hreq Heq). cbn in Hex.
      destruct (api.Client _ _ _) as [res | e]; [| by destruct Hex as (? & ? & _)].
      destruct (http.ReadAll res) as [raw | e]; [| by destruct Hex as (? & ? & _)].
      destruct (unmarshal raw) as [resp' | e]; [| by destruct Hex as (? & ? & _)].
      by injection Hex as <- <-.
    + intros payload Hpayload. apply classified_payload in Hpayload as [Hlt ->].
      destruct (Hret statusCode resp eq_refl) as (hreq & res & raw & H1 & H2 & H3 & H4 & ->).
      rewrite classified_world, <- Hsent. by exists hreq, res, raw, resp.
  - split; [| by intros payload].
    intros hreq. rewrite <- Hsent. cbn. intros Heq.
    specialize (Hex hreq Heq). cbn in Hex.
    destruct (api.Client _ _ _) as [res | e'];
      [destruct (http.ReadAll res) as [raw | e'];
       [destruct (unmarshal raw) as [resp' | e']; [done |] |] |];
      destruct Hex as (err & [= <-] & Hreach);
      (eexists; split; [done | by apply reaches_wrapped]).
Qed.

Ltac outcome_through_doRequest c w :=
  unfold mbind, M_bind, wrapping, GenerateSignature, Generate, Now, api.Post, api.Get;
  cbn;
  try (destruct (signatureGenerator _ _) as [signature | e]; cbn;
       [| split; [intros hreq Heq; by apply app_singleton_neq in Heq | by intros payload]]);
  match goal with
  | |- context [api.doRequest ?r ?hm ?b ?m ?w1] =>
      let Hex := fresh "Hex" in
      let Hret := fresh "Hret" in
      pose proof (doRequest_exchanged r hm b m w1) as Hex;
      pose proof (doRequest_returns r hm b m w1) as Hret;
      destruct (api.doRequest r hm b m w1) as [[[statusCode resp] | e] w'];
      [ exact (answered_through_doRequest c "failed to execute post request: " w w1
                 (Ok (statusCode, resp), w') eq_refl Hex Hret)
      | exact (answered_through_doRequest c "failed to execute post request: " w w1
                 (Error e, w') eq_refl Hex Hret) ]
  end.

Lemma GetDepositAddress_outcome {A : Type} `{!Unmarshal (Response (list A))}
    (c : Client) (req : getdepositaddress.GetDepositAddressRequest) (w : World) :
  answered c w (getdepositaddress.GetDepositAddress c req w) ∧
  payload_only_from_answer c w (getdepositaddress.GetDepositAddress c req w).
Proof. unfold getdepositaddress.GetDepositAddress. outcome_through_doRequest c w. Qed.

Lemma CreateWithdrawal_outcome {A : Type} `{!Unmarshal (Response A)}
    (c : Client) (req : createwithdrawal.CreateWithdrawalRequest) (w : World) :
  answered c w (createwithdrawal.CreateWithdrawal c req w) ∧
  payload_only_from_answer c w (createwithdrawal.CreateWithdrawal c req w).
Proof. unfold createwithdrawal.CreateWithdrawal. outcome_through_doRequest c w. Qed.

Lemma UserBalanceHistory_outcome {A : Type} `{!Unmarshal (Response A)}
    (c : Client) (req : userbalancehistory.UserBalanceHistoryRequest) (w : World) :
  answered c w (userbalancehistory.UserBalanceHistory c req w) ∧
  payload_only_from_answer c w (userbalancehistory.UserBalanceHistory c req w).
Proof. unfold userbalancehistory.UserBalanceHistory. outcome_through_doRequest c w. Qed.

Ltac rejected_outcome :=
  split; [intros hreq Heq; by apply app_singleton_neq in Heq | by intros payload].

Lemma GetDepositHistory_outcome {A : Type} `{!Unmarshal (Response (list A))}
    (c : Client) (req : getdeposithistory.GetDepositHistoryRequest) (w : World) :
  answered c w (getdeposithistory.GetDepositHistory c req w) ∧
  payload_only_from_answer c w (getdeposithistory.GetDepositHistory c req w).
Proof.
  unfold getdeposithistory.GetDepositHistory.
  destruct (_ <? 0); [rejected_outcome |].
  destruct (200 <? _); [rejected_outcome |].
  outcome_through_doRequest c w.
Qed.

Lemma GetWithdrawalHistory_outcome {A : Type} `{!Unmarshal (Response (list A))}
    (c : Client) (req : getwithdrawalhistory.GetWithdrawalHistoryRequest) (w : World) :
  answered c w (getwithdrawalhistory.GetWithdrawalHistory c req w) ∧
  payload_only_from_answer c w (getwithdrawalhistory.GetWithdrawalHistory c req w).
Proof.
  unfold getwithdrawalhistory.GetWithdrawalHistory.
  destruct (_ <? 0); [rejected_outcome |].
  destruct (200 <? _); [rejected_outcome |].
  outcome_through_doRequest c w.
Qed.

Lemma GetInstruments_outcome {A : Type} `{!Unmarshal (Response (list A))}
    (c : Client) (w : World) :
  answered c w (getinstruments.GetInstruments c w) ∧
  payload_only_from_answer c w (getinstruments.GetInstruments c w).
Proof. unfold getinstruments.GetInstruments. outcome_through_doRequest c w. Qed.

Ltac outcome_direct :=
  unfold answered, payload_only_from_answer, mbind, M_bind, wrapping, lift, Do,
    http.NewRequestWithContext;
  cbn;
  destruct (http.url_Parse _) as [q | e]; cbn; [| rejected_outcome];
  match goal with
  | |- context [api.Client ?r ?l ?hreq] =>
      destruct (api.Client r l hreq) as [res | e] eqn:?; cbn;
      [destruct (http.ReadAll res) as [raw | e] eqn:?; cbn;
       [destruct (unmarshal raw) as [resp | e] eqn:?; cbn |] |]
  end;
  (split;
   [ intros hreq0 Heq; rewrite ?classified_world in Heq; cbn in Heq;
     apply app_inj_tail in Heq as [_ <-];
     repeat match goal with
            | H : api.Client _ _ _ = _ |- _ => rewrite H
            | H : http.ReadAll _ = _ |- _ => rewrite H
            | H : unmarshal _ = _ |- _ => rewrite H
            end;
     first [ by rewrite classified_result
           | eexists; split; [done | apply reaches_Wrapf] ]
   | intros payload Hpayload;
     first [ done
           | apply classified_payload in Hpayload as [Hlt ->];
             rewrite classified_world; eexists _, _, _, _;
             split_and!; [reflexivity | eassumption | eassumption | eassumption
                         | assumption | reflexivity] ] ]).

Lemma GetTickers_outcome {A : Type} `{!Unmarshal (Response (list A))}
    (c : Client) (instrument : string) (w : World) :
  answered c w (getticker.GetTickers c instrument w) ∧
  payload_only_from_answer c w (getticker.GetTickers c instrument w).
Proof.
  unfold getticker.GetTickers. destruct (bool_decide (instrument = "")); outcome_direct.
Qed.

Lemma GetBook_outcome {A : Type} `{!Unmarshal (Response A)}
    (c : Client) (instrument : string) (depth : Z) (w : World) :
  answered c w (getbook.GetBook c instrument depth w) ∧
  payload_only_from_answer c w (getbook.GetBook c instrument depth w).
Proof. unfold getbook.GetBook. outcome_direct. Qed.

End Outcomes.

(** ** Floats that JSON cannot hold *)

Lemma SFeqb_refl_finite (s : bool) (m : positive) (e : Z) :
  SFeqb (S754_finite s m e) (S754_finite s m e) = true.
Proof.
  unfold SFeqb, SFcompare.
  pose proof (Z.compare_refl e) as He.
  pose proof (Pos.compare_cont_refl m Eq) as Hm.
  destruct s; rewrite He, Hm; reflexivity.
Qed.

Lemma unsupported_float_is_not_zero (f : float) :
  is_nan f || is_infinity f = true → PrimFloat.eqb f 0%float = false.
Proof.
  unfold is_nan, is_infinity. rewrite !FloatAxioms.eqb_spec, FloatAxioms.abs_spec.
  assert (Prim2SF 0%float = S754_zero false) as -> by reflexivity.
  assert (Prim2SF infinity = S754_infinity false) as -> by reflexivity.
  destruct (Prim2SF f) as [s | s | | s m e].
  - by cbn.
  - intros _. by destruct s.
  - by cbn.
  - rewrite SFeqb_refl_finite. by cbn.
Qed.

(** ** Parameters that are never transmitted *)

Ltac no_zero_values_tac :=
  unfold no_zero_values; cbn;
  repeat case_bool_decide;
  cbn;
  intros ? ? ?;
  repeat match goal with
         | H : <[_:=_]> _ !! _ = Some _ |- _ =>
             rewrite lookup_insert in H; case_decide;
             [apply (inj Some) in H; subst; first [done | by left | right; in_literal] |]
         end;
  match goal with
  | H : ∅ !! _ = Some _ |- _ => by rewrite lookup_empty in H
  end.

Lemma GetDepositAddress_no_zero_values (req : getdepositaddress.GetDepositAddressRequest) :
  no_zero_values [] (getdepositaddress.buildParams req).
Proof.
  unfold getdepositaddress.buildParams. no_zero_values_tac.
 
Qed.

Lemma CreateWithdrawal_no_zero_values (req : createwithdrawal.CreateWithdrawalRequest) :
  no_zero_values [] (createwithdrawal.buildParams req).
Proof.
  unfold createwithdrawal.buildParams.
  destruct (PrimFloat.eqb (createwithdrawal.Amount req) 0%float) eqn:Hamount.
  - no_zero_values_tac.
  - no_zero_values_tac.
Qed.

Lemma UserBalanceHistory_no_zero_values (req : userbalancehistory.UserBalanceHistoryRequest) :
  no_zero_values [] (userbalancehistory.buildParams req).
Proof.
  unfold userbalancehistory.buildParams.
  destruct (time.IsZero (userbalancehistory.EndTime req)).
  - no_zero_values_tac.
  - no_zero_values_tac.
Qed.

Lemma GetDepositHistory_no_zero_values (req : getdeposithistory.GetDepositHistoryRequest) :
  no_zero_values ["page"] (getdeposithistory.buildParams req).
Proof.
  unfold getdeposithistory.buildParams.
  destruct (time.IsZero (getdeposithistory.Start req));
    destruct (time.IsZero (getdeposithistory.End_ req)).
  - no_zero_values_tac.
  - no_zero_values_tac.
  - no_zero_values_tac.
  - no_zero_values_tac.
Qed.

Lemma GetWithdrawalHistory_no_zero_values
    (req : getwithdrawalhistory.GetWithdrawalHistoryRequest) :
  no_zero_values ["page"] (getwithdrawalhistory.buildParams req).
Proof.
  unfold getwithdrawalhistory.buildParams.
  destruct (time.IsZero (getwithdrawalhistory.Start req));
    destruct (time.IsZero (getwithdrawalhistory.End_ req)).
  - no_zero_values_tac.
  - no_zero_values_tac.
  - no_zero_values_tac.
  - no_zero_values_tac.
Qed.

(** X4: no endpoint puts an empty string, a zero [int] or a float equal to
    zero into its parameter map: such a field is left out.  The one exception
    is [page] of the two history endpoints, which is always there.  The
    timestamps are [int64] and are there whenever the time is set. *)
Theorem zero_fields_are_not_parameters
    (reqA : getdepositaddress.GetDepositAddressRequest)
    (reqD : getdeposithistory.GetDepositHistoryRequest)
    (reqW : getwithdrawalhistory.GetWithdrawalHistoryRequest)
    (reqC : createwithdrawal.CreateWithdrawalRequest)
    (reqU : userbalancehistory.UserBalanceHistoryRequest) :
  no_zero_values [] (getdepositaddress.buildParams reqA) ∧
  no_zero_values ["page"] (getdeposithistory.buildParams reqD) ∧
  no_zero_values ["page"] (getwithdrawalhistory.buildParams reqW) ∧
  no_zero_values [] (createwithdrawal.buildParams reqC) ∧
  no_zero_values [] (userbalancehistory.buildParams reqU).
Proof.
  split_and!.
  - apply GetDepositAddress_no_zero_values.
  - apply GetDepositHistory_no_zero_values.
  - apply GetWithdrawalHistory_no_zero_values.
  - apply CreateWithdrawal_no_zero_values.
  - apply UserBalanceHistory_no_zero_values.
Qed.

(** ** The transport wrapper *)

Section Wrapper.
Context `{!CodeTable, !http.URLParser}.

Lemma doRequest_before_transport {R : Type} `{!Unmarshal R} (r : api.Requester)
    (httpMethod : string) (body : api.Request) (method : string) (w : World) :
  (∀ e, api.Marshal body = Error e →
     api.doRequest (R:=R) r httpMethod body method w
     = (Error (Wrapf "failed to marshal request body: " e), w)) ∧
  (∀ json e, api.Marshal body = Ok json →
     http.url_Parse
       (api.BaseURL r
        ++ (if bool_decide (api.Version body = "") then api.V1 else api.Version body)
        ++ method) = Error e →
     api.doRequest (R:=R) r httpMethod body method w
     = (Error (Wrapf "failed to create request: " e), w)).
Proof.
  unfold api.doRequest, mbind, M_bind, wrapping, lift, http.NewRequestWithContext.
  split.
  - intros e ->. done.
  - intros json e -> Hurl. cbn. by rewrite Hurl.
Qed.

Lemma doRequest_returns_verb {R : Type} `{!Unmarshal R} (r : api.Requester)
    (httpMethod : string) (body : api.Request) (method : string) (w : World)
    (statusCode : Z) (response : R) :
  (api.doRequest r httpMethod body method w).1 = Ok (statusCode, response) →
  ∃ hreq res raw,
    sent (api.doRequest (R:=R) r httpMethod body method w).2 = (sent w ++ [hreq])%list ∧
    http.Method hreq = httpMethod ∧
    api.Client r (sent w) hreq = Ok res ∧
    http.ReadAll res = Ok raw ∧
    unmarshal raw = Ok response ∧
    statusCode = http.StatusCode res.
Proof.
  intros Hok.
  destruct (doRequest_returns _ _ _ _ _ _ _ Hok) as (hreq & res & raw & H1 & H2 & H3 & H4 & H5).
  exists hreq, res, raw. split_and!; try done.
  pose proof (doRequest_world (R:=R) r httpMethod body method w) as (_ & _ & _ & Hsent).
  rewrite H1 in Hsent.
  destruct (api.Marshal body) as [json | e];
    [| symmetry in Hsent; by apply app_singleton_neq in Hsent].
  destruct (http.url_Parse _) as [q | e];
    [| symmetry in Hsent; by apply app_singleton_neq in Hsent].
  by apply app_inj_tail in Hsent as [_ ->].
Qed.

(** X5: [Post] and [Get] never judge the answer.  Once the request is with the
    client, they return the client's, the reader's or the decoder's error with
    its cause in reach, or else the status code exactly as received, also 400
    and above, with the decoded response; and they return a status code only
    after such an exchange.  When the envelope cannot be marshalled or the URL
    does not parse they fail with the world untouched. *)
Theorem requester_returns_status_unjudged {R : Type} `{!Unmarshal R} (r : api.Requester)
    (body : api.Request) (method : string) (w : World) :
  exchanged r w (api.Post (R:=R) r body method w) ∧
  exchanged r w (api.Get (R:=R) r body method w) ∧
  (∀ statusCode response,
     (api.Post r body method w).1 = Ok (statusCode, response) →
     ∃ hreq res raw,
       sent (api.Post (R:=R) r body method w).2 = (sent w ++ [hreq])%list ∧
       http.Method hreq = http.MethodPost ∧
       api.Client r (sent w) hreq = Ok res ∧
       http.ReadAll res = Ok raw ∧
       unmarshal raw = Ok response ∧
       statusCode = http.StatusCode res) ∧
  (∀ statusCode response,
     (api.Get r body method w).1 = Ok (statusCode, response) →
     ∃ hreq res raw,
       sent (api.Get (R:=R) r body method w).2 = (sent w ++ [hreq])%list ∧
       http.Method hreq = http.MethodGet ∧
       api.Client r (sent w) hreq = Ok res ∧
       http.ReadAll res = Ok raw ∧
       unmarshal raw = Ok response ∧
       statusCode = http.StatusCode res) ∧
  (∀ e, api.Marshal body = Error e →
     (api.Post (R:=R) r body method w).2 = w ∧ (api.Get (R:=R) r body method w).2 = w).
Proof.
  unfold api.Post, api.Get. split_and!.
  - apply doRequest_exchanged.
  - apply doRequest_exchanged.
  - intros statusCode response Hok. by apply doRequest_returns_verb.
  - intros statusCode response Hok. by apply doRequest_returns_verb.
  - intros e He.
    destruct (doRequest_before_transport (R:=R) r http.MethodPost body method w) as [HP _].
    destruct (doRequest_before_transport (R:=R) r http.MethodGet body method w) as [HG _].
    by rewrite (HP e He), (HG e He).
Qed.

End Wrapper.

Lemma requester_returns_status_unjudged_witness :
  (@api.Post fixture.parser _ (fixture.decoder [] : Unmarshal (Response (list string)))
     (requester (fixture.client 500 "10003")) fixture.signedEnvelope
     "private/get-deposit-history" fixture.w0).1
  = Ok (500, {| Base := {| api.RespID := "1"; api.RespMethod := ""; api.Code := "10003" |};
                Result := [] |}) ∧
  ∃ hreq,
    sent (@api.Get fixture.parser _ (fixture.decoder [] : Unmarshal (Response (list string)))
            (requester (fixture.client 500 "10003")) fixture.publicEnvelope
            "public/get-instruments" fixture.w0).2 = [hreq] ∧
    http.Method hreq = "GET".
Proof.
  destruct (@requester_returns_status_unjudged fixture.parser _
              (fixture.decoder [] : Unmarshal (Response (list string)))
              (requester (fixture.client 500 "10003")) fixture.signedEnvelope
              "private/get-deposit-history" fixture.w0) as (Hpost & _).
  destruct (@requester_returns_status_unjudged fixture.parser _
              (fixture.decoder [] : Unmarshal (Response (list string)))
              (requester (fixture.client 500 "10003")) fixture.publicEnvelope
              "public/get-instruments" fixture.w0) as (_ & _ & _ & Hget & _).
  split; [refine (Hpost _ _); vm_compute; reflexivity |].
  destruct (Hget 500 {| Base := {| api.RespID := "1"; api.RespMethod := "";
                                    api.Code := "10003" |};
                        Result := [] |} eq_refl)
    as (hreq & _ & _ & Hsent & Hverb & _).
  exists hreq. split; [exact Hsent | exact Hverb].
Defined.

(** ** Every endpoint, from request to result *)

Section Endpoints.
Context `{!CodeTable, !http.URLParser}.
Context {Instrument BookResult Ticker Deposit Withdrawal DepositAddress
         CreateWithdrawalResult UserBalanceHistoryResult : Type}.
Context `{!Unmarshal (Response (list Instrument)),
          !Unmarshal (Response BookResult),
          !Unmarshal (Response (list Ticker)),
          !Unmarshal (Response (list Deposit)),
          !Unmarshal (Response (list Withdrawal)),
          !Unmarshal (Response (list DepositAddress)),
          !Unmarshal (Response CreateWithdrawalResult),
          !Unmarshal (Response UserBalanceHistoryResult)}.

(** X6: once an endpoint has handed its request to the HTTP client, the
    exchange alone decides what it returns: the client's, the reader's or the
    decoder's error, wrapped but with the cause in reach of [errors.Is] and
    [errors.As], whatever the status code; or else the classifier's verdict on
    the status and the decoded code, the payload or the wrapped error. *)
Theorem endpoints_report_the_exchange (c : Client) (w : World)
    (instrument : string) (depth : Z)
    (reqA : getdepositaddress.GetDepositAddressRequest)
    (reqD : getdeposithistory.GetDepositHistoryRequest)
    (reqW : getwithdrawalhistory.GetWithdrawalHistoryRequest)
    (reqC : createwithdrawal.CreateWithdrawalRequest)
    (reqU : userbalancehistory.UserBalanceHistoryRequest) :
  answered c w (getinstruments.GetInstruments (Instrument:=Instrument) c w) ∧
  answered c w (getbook.GetBook (BookResult:=BookResult) c instrument depth w) ∧
  answered c w (getticker.GetTickers (Ticker:=Ticker) c instrument w) ∧
  answered c w (getdepositaddress.GetDepositAddress (DepositAddress:=DepositAddress) c reqA w) ∧
  answered c w (getdeposithistory.GetDepositHistory (Deposit:=Deposit) c reqD w) ∧
  answered c w (getwithdrawalhistory.GetWithdrawalHistory (Withdrawal:=Withdrawal) c reqW w) ∧
  answered c w
    (createwithdrawal.CreateWithdrawal
       (CreateWithdrawalResult:=CreateWithdrawalResult) c reqC w) ∧
  answered c w
    (userbalancehistory.UserBalanceHistory
       (UserBalanceHistoryResult:=UserBalanceHistoryResult) c reqU w).
Proof.
  split_and!.
  - apply GetInstruments_outcome.
  - apply GetBook_outcome.
  - apply GetTickers_outcome.
  - apply GetDepositAddress_outcome.
  - apply GetDepositHistory_outcome.
  - apply GetWithdrawalHistory_outcome.
  - apply CreateWithdrawal_outcome.
  - apply UserBalanceHistory_outcome.
Qed.

(** X7: an endpoint returns a payload only when it has sent one request, the
    client answered it with a status below 400, and the body was read and
    decoded; the payload is the result part of that decoded response. *)
Theorem payload_needs_a_good_answer (c : Client) (w : World)
    (instrument : string) (depth : Z)
    (reqA : getdepositaddress.GetDepositAddressRequest)
    (reqD : getdeposithistory.GetDepositHistoryRequest)
    (reqW : getwithdrawalhistory.GetWithdrawalHistoryRequest)
    (reqC : createwithdrawal.CreateWithdrawalRequest)
    (reqU : userbalancehistory.UserBalanceHistoryRequest) :
  payload_only_from_answer c w (getinstruments.GetInstruments (Instrument:=Instrument) c w) ∧
  payload_only_from_answer c w
    (getbook.GetBook (BookResult:=BookResult) c instrument depth w) ∧
  payload_only_from_answer c w (getticker.GetTickers (Ticker:=Ticker) c instrument w) ∧
  payload_only_from_answer c w
    (getdepositaddress.GetDepositAddress (DepositAddress:=DepositAddress) c reqA w) ∧
  payload_only_from_answer c w
    (getdeposithistory.GetDepositHistory (Deposit:=Deposit) c reqD w) ∧
  payload_only_from_answer c w
    (getwithdrawalhistory.GetWithdrawalHistory (Withdrawal:=Withdrawal) c reqW w) ∧
  payload_only_from_answer c w
    (createwithdrawal.CreateWithdrawal
       (CreateWithdrawalResult:=CreateWithdrawalResult) c reqC w) ∧
  payload_only_from_answer c w
    (userbalancehistory.UserBalanceHistory
       (UserBalanceHistoryResult:=UserBalanceHistoryResult) c reqU w).
Proof.
  split_and!.
  - apply GetInstruments_outcome.
  - apply GetBook_outcome.
  - apply GetTickers_outcome.
  - apply GetDepositAddress_outcome.
  - apply GetDepositHistory_outcome.
  - apply GetWithdrawalHistory_outcome.
  - apply CreateWithdrawal_outcome.
  - apply UserBalanceHistory_outcome.
Qed.

Ltac refused_tac :=
  unfold refused, signatureRequest, mbind, M_bind, wrapping, GenerateSignature, Generate, Now;
  cbn; intros ? Hrefused; by rewrite Hrefused.

(** X8: when the signature generator refuses, a private endpoint returns the
    refusal wrapped as a signature failure and sends nothing; by then it has
    used an id and a clock read, and the signature request is on record. *)
Theorem refused_signature_sends_nothing (c : Client) (w : World)
    (reqA : getdepositaddress.GetDepositAddressRequest)
    (reqD : getdeposithistory.GetDepositHistoryRequest)
    (reqW : getwithdrawalhistory.GetWithdrawalHistoryRequest)
    (reqC : createwithdrawal.CreateWithdrawalRequest)
    (reqU : userbalancehistory.UserBalanceHistoryRequest) :
  refused c getdepositaddress.methodGetDepositAddress (getdepositaddress.buildParams reqA) w
    (getdepositaddress.GetDepositAddress (DepositAddress:=DepositAddress) c reqA w) ∧
  (0 ≤ getdeposithistory.PageSize reqD ≤ 200 →
   refused c getdeposithistory.methodGetDepositHistory (getdeposithistory.buildParams reqD) w
     (getdeposithistory.GetDepositHistory (Deposit:=Deposit) c reqD w)) ∧
  (0 ≤ getwithdrawalhistory.PageSize reqW ≤ 200 →
   refused c getwithdrawalhistory.methodGetWithdrawalHistory
     (getwithdrawalhistory.buildParams reqW) w
     (getwithdrawalhistory.GetWithdrawalHistory (Withdrawal:=Withdrawal) c reqW w)) ∧
  refused c createwithdrawal.methodCreateWithdrawal (createwithdrawal.buildParams reqC) w
    (createwithdrawal.CreateWithdrawal
       (CreateWithdrawalResult:=CreateWithdrawalResult) c reqC w) ∧
  refused c userbalancehistory.methodUserBalanceHistory
    (userbalancehistory.buildParams reqU) w
    (userbalancehistory.UserBalanceHistory
       (UserBalanceHistoryResult:=UserBalanceHistoryResult) c reqU w).
Proof.
  split_and!.
  - unfold getdepositaddress.GetDepositAddress. refused_tac.
  - intros [Hlo Hhi]. unfold getdeposithistory.GetDepositHistory.
    destruct (_ <? 0) eqn:H1; [apply Z.ltb_lt in H1; lia |].
    destruct (200 <? _) eqn:H2; [apply Z.ltb_lt in H2; lia |].
    refused_tac.
  - intros [Hlo Hhi]. unfold getwithdrawalhistory.GetWithdrawalHistory.
    destruct (_ <? 0) eqn:H1; [apply Z.ltb_lt in H1; lia |].
    destruct (200 <? _) eqn:H2; [apply Z.ltb_lt in H2; lia |].
    refused_tac.
  - unfold createwithdrawal.CreateWithdrawal. refused_tac.
  - unfold userbalancehistory.UserBalanceHistory. refused_tac.
Qed.

End Endpoints.

(** ** What the JSON encoder does with a parameter map *)

Lemma marshalValue_supported (v : value) :
  (∃ j, jsonenc.marshalValue v = Ok j) ↔ supported v.
Proof.
  destruct v as [s | n | n | f]; try (split; [done | by eexists]).
  unfold jsonenc.marshalValue, supported.
  destruct (is_nan f || is_infinity f); split.
  - by intros [? ?].
  - done.
  - done.
  - by eexists.
Qed.

Lemma marshalFields_supported (l : list (string * value)) :
  (∃ fs, jsonenc.marshalFields l = Ok fs) ↔ Forall (λ kv, supported kv.2) l.
Proof.
  induction l as [| [k v] l IH]; cbn.
  - split; [by constructor | by eexists].
  - rewrite Forall_cons. cbn. rewrite <- IH, <- marshalValue_supported.
    destruct (jsonenc.marshalValue v) as [j | e].
    + destruct (jsonenc.marshalFields l) as [js | e].
      * split; [intros _; split; by eexists | by eexists].
      * split; [by intros [? ?] | by intros [_ [? ?]]].
    + split; [by intros [? ?] | by intros [[? ?] _]].
Qed.

Lemma marshalMap_supported (m : gmap string value) :
  (∃ pj, jsonenc.marshalMap (Some m) = Ok pj) ↔ ∀ k v, m !! k = Some v → supported v.
Proof.
  unfold jsonenc.marshalMap.
  assert (Forall (λ kv : string * value, supported kv.2) (sort_keys (map_to_list m))
          ↔ ∀ k v, m !! k = Some v → supported v) as <-.
  { unfold sort_keys. rewrite merge_sort_Permutation, Forall_forall. split.
    - intros Hall k v Hkv. apply (Hall (k, v)). by apply elem_of_map_to_list.
    - intros Hall [k v] Hin. apply (Hall k v). by apply elem_of_map_to_list. }
  rewrite <- marshalFields_supported.
  destruct (jsonenc.marshalFields _) as [fs | e];
    split; try (by intros [? ?]); by eexists.
Qed.

Lemma Marshal_supported (r : api.Request) (m : gmap string value) :
  api.Params r = Some m →
  (∃ env, api.Marshal r = Ok env) ↔ ∀ k v, m !! k = Some v → supported v.
Proof.
  intros Hparams. rewrite <- marshalMap_supported. unfold api.Marshal. rewrite Hparams.
  destruct (jsonenc.marshalMap (Some m)) as [pj | e];
    split; try (by intros [? ?]); by eexists.
Qed.

(** X9: the params member of an envelope is [null] for the nil map and
    otherwise an object, also for the empty map, with one member per key, in
    ascending order of the keys and without repetition. *)
Theorem params_member_of_envelope (r : api.Request) (env : jsonenc.Value) :
  api.Marshal r = Ok env →
  match api.Params r with
  | None => jsonenc.member "params" env = Some jsonenc.Null
  | Some m =>
      ∃ fields,
        jsonenc.member "params" env = Some (jsonenc.Object fields) ∧
        (∀ k, k ∈ fields.*1 ↔ is_Some (m !! k)) ∧
        NoDup fields.*1 ∧
        Sorted (λ a b : string, String.leb a b) fields.*1 ∧
        length fields = size m
  end.
Proof.
  intros Henv. destruct (Marshal_members r env Henv) as (pj & Hpj & ->).
  destruct (api.Params r) as [m |]; cbn in Hpj; [| by injection Hpj as <-].
  pose proof (marshalMap_members m pj) as Hmembers.
  destruct (jsonenc.marshalFields _) as [fields | e] eqn:Hfields; [| done].
  injection Hpj as <-. exists fields.
  pose proof (marshalFields_keys _ _ Hfields) as Hkeys.
  split_and!.
  - reflexivity.
  - intros k. apply Hmembers. unfold jsonenc.marshalMap. by rewrite Hfields.
  - rewrite Hkeys. unfold sort_keys. rewrite merge_sort_Permutation.
    apply NoDup_fst_map_to_list.
  - rewrite Hkeys.
    apply (Sorted_fmap fst key_le (λ a b : string, String.leb a b));
      [by intros x y | apply (Sorted_merge_sort key_le)].
  - rewrite <- (length_fmap fst), Hkeys, length_fmap. unfold sort_keys.
    rewrite merge_sort_Permutation. apply length_map_to_list.
Qed.

Lemma params_member_of_envelope_witness :
  ∃ env,
    api.Marshal (envelope (signatureRequest (fixture.client 200 "0") fixture.w0
                             getdepositaddress.methodGetDepositAddress
                             (getdepositaddress.buildParams
                                {| getdepositaddress.Currency := "" |}))
                          "5f2b" "") = Ok env ∧
    jsonenc.member "params" env = Some (jsonenc.Object []).
Proof.
  destruct (api.Marshal _) as [env | e] eqn:Henv; [| by vm_compute in Henv].
  exists env. split; [reflexivity |].
  destruct (params_member_of_envelope _ env Henv) as (fields & Hmember & _ & _ & _ & Hsize).
  destruct fields; [exact Hmember | by vm_compute in Hsize].
Defined.

(** ** Where the private endpoints send, and what they do not check *)



Section Private.
Context `{!CodeTable, !http.URLParser}.
Context {Deposit Withdrawal DepositAddress CreateWithdrawalResult
         UserBalanceHistoryResult : Type}.
Context `{!Unmarshal (Response (list Deposit)),
          !Unmarshal (Response (list Withdrawal)),
          !Unmarshal (Response (list DepositAddress)),
          !Unmarshal (Response CreateWithdrawalResult),
          !Unmarshal (Response UserBalanceHistoryResult)}.


(** X11: GetDepositAddress, CreateWithdrawal and UserBalanceHistory check
    nothing before they sign: for every request they use one id and one clock
    read and hand the parameter map to the signature generator.  A limit that
    is not zero, negative or however large, is in that map as it was given. *)
Theorem unchecked_endpoints_always_sign (c : Client) (w : World)
    (reqA : getdepositaddress.GetDepositAddressRequest)
    (reqC : createwithdrawal.CreateWithdrawalRequest)
    (reqU : userbalancehistory.UserBalanceHistoryRequest) :
  (let w' := (getdepositaddress.GetDepositAddress
                (DepositAddress:=DepositAddress) c reqA w).2 in
   idCalls w' = S (idCalls w) ∧ clockReads w' = S (clockReads w) ∧
   signed w' = (signed w ++ [signatureRequest c w getdepositaddress.methodGetDepositAddress
                               (getdepositaddress.buildParams reqA)])%list) ∧
  (let w' := (createwithdrawal.CreateWithdrawal
                (CreateWithdrawalResult:=CreateWithdrawalResult) c reqC w).2 in
   idCalls w' = S (idCalls w) ∧ clockReads w' = S (clockReads w) ∧
   signed w' = (signed w ++ [signatureRequest c w createwithdrawal.methodCreateWithdrawal
                               (createwithdrawal.buildParams reqC)])%list) ∧
  (let w' := (userbalancehistory.UserBalanceHistory
                (UserBalanceHistoryResult:=UserBalanceHistoryResult) c reqU w).2 in
   idCalls w' = S (idCalls w) ∧ clockReads w' = S (clockReads w) ∧
   signed w' = (signed w ++ [signatureRequest c w userbalancehistory.methodUserBalanceHistory
                               (userbalancehistory.buildParams reqU)])%list) ∧
  (userbalancehistory.Limit reqU ≠ 0 →
   userbalancehistory.buildParams reqU !! "limit"
   = Some (VInt (userbalancehistory.Limit reqU))).
Proof.
  split_and!.
  - by destruct (GetDepositAddress_run (A:=DepositAddress) c reqA w) as (? & ? & ? & _).
  - by destruct (CreateWithdrawal_run (A:=CreateWithdrawalResult) c reqC w) as (? & ? & ? & _).
  - by destruct (UserBalanceHistory_run (A:=UserBalanceHistoryResult) c reqU w)
      as (? & ? & ? & _).
  - intros Hlimit. unfold userbalancehistory.buildParams.
    rewrite (bool_decide_eq_true_2 _ Hlimit).
    destruct (negb _); repeat case_bool_decide; by simplify_map_eq.
Qed.

(** X12: the envelope of CreateWithdrawal can be marshalled exactly when the
    amount is neither NaN nor infinite.  With a NaN or infinite amount the
    endpoint still signs the request, then fails and sends nothing. *)
Theorem unsupported_amount_is_signed_not_sent (c : Client) (w : World)
    (reqC : createwithdrawal.CreateWithdrawalRequest) (signature : string) :
  let sreq := signatureRequest c w createwithdrawal.methodCreateWithdrawal
                (createwithdrawal.buildParams reqC) in
  let out := createwithdrawal.CreateWithdrawal
               (CreateWithdrawalResult:=CreateWithdrawalResult) c reqC w in
  ((∃ env, api.Marshal (envelope sreq signature "") = Ok env)
   ↔ is_nan (createwithdrawal.Amount reqC) || is_infinity (createwithdrawal.Amount reqC)
     = false) ∧
  (is_nan (createwithdrawal.Amount reqC) || is_infinity (createwithdrawal.Amount reqC) = true →
   signed out.2 = (signed w ++ [sreq])%list ∧
   sent out.2 = sent w ∧
   ∃ err, out.1 = Error err ∧
          (signatureGenerator c sreq = Ok signature →
           ∃ e, err = Wrapf "failed to execute post request: "
                        (Wrapf "failed to marshal request body: " e))).
Proof.
  intros sreq out.
  assert ((∃ env, api.Marshal (envelope sreq signature "") = Ok env)
          ↔ is_nan (createwithdrawal.Amount reqC) || is_infinity (createwithdrawal.Amount reqC)
            = false) as Hiff.
  { rewrite (Marshal_supported _ (createwithdrawal.buildParams reqC)) by done. split.
    - intros Hall.
      destruct (is_nan _ || is_infinity _) eqn:Hbad; [| done].
      pose proof (unsupported_float_is_not_zero _ Hbad) as Hne.
      assert (createwithdrawal.buildParams reqC !! "amount"
              = Some (VFloat64 (createwithdrawal.Amount reqC))) as Hamount.
      { unfold createwithdrawal.buildParams. rewrite Hne. cbn.
        repeat case_bool_decide; by simplify_map_eq. }
      specialize (Hall _ _ Hamount). rewrite <- Hbad. exact Hall.
    - intros Hgood k v Hkv. unfold createwithdrawal.buildParams in Hkv.
      destruct (PrimFloat.eqb _ _); cbn in Hkv; repeat case_bool_decide;
        repeat (rewrite lookup_insert in Hkv; case_decide;
                [by injection Hkv as <- |]);
        by rewrite lookup_empty in Hkv. }
  split; [exact Hiff |].
  intros Hbad.
  destruct (CreateWithdrawal_run (A:=CreateWithdrawalResult) c reqC w)
    as (_ & _ & Hsigned & Hsent).
  fold out in Hsigned, Hsent. fold sreq in Hsigned, Hsent.
  assert (∀ s, ∃ e, api.Marshal (envelope sreq s "") = Error e) as Hfail.
  { intros s. destruct (api.Marshal (envelope sreq s "")) as [env | e] eqn:Henv; [| by exists e].
    assert (∃ env', api.Marshal (envelope sreq signature "") = Ok env') as Hex.
    { rewrite (Marshal_supported _ (createwithdrawal.buildParams reqC)) by done.
      rewrite <- (Marshal_supported (envelope sreq s "")) by done. by exists env. }
    apply Hiff in Hex. congruence. }
  assert (sent out.2 = sent w) as Hunsent.
  { rewrite Hsent. destruct (signatureGenerator c sreq) as [s | e]; [| done].
    cbn. by destruct (Hfail s) as [e ->]. }
  split_and!; [exact Hsigned | exact Hunsent |].
  destruct (out.1) as [payload | err] eqn:Hout.
  - destruct (CreateWithdrawal_outcome (A:=CreateWithdrawalResult) c reqC w) as [_ Hpayload].
    destruct (Hpayload payload Hout) as (hreq & _ & _ & _ & Hone & _).
    fold out in Hone. rewrite Hunsent in Hone. by apply app_singleton_neq in Hone.
  - exists err. split; [done |]. intros Hsig.
    destruct (Hfail signature) as [e He]. exists e.
    revert Hout. subst out sreq.
    unfold createwithdrawal.CreateWithdrawal, signatureRequest, envelope, mbind, M_bind,
      wrapping, GenerateSignature, Generate, Now, api.Post in *.
    cbn in *. rewrite Hsig. cbn.
    match goal with
    | |- context [api.doRequest ?r ?hm ?b ?m ?w1] =>
        destruct (doRequest_before_transport (R:=Response CreateWithdrawalResult)
                    r hm b m w1) as [Hbefore _];
        rewrite (Hbefore e He)
    end.
    cbn. by intros [= <-].
Qed.

End Private.

(** ** The further properties at work *)

Lemma endpoints_report_the_exchange_witness :
  ∃ err,
    (fixture.getTickers scenario.offlineClient "BTC_USDT" fixture.w0).1 = Error err ∧
    reaches err scenario.unreachable.
Proof.
  destruct (@endpoints_report_the_exchange fixture.table fixture.parser
              string string string string string string string string
              (fixture.decoder []) (fixture.decoder "") (fixture.decoder [])
              (fixture.decoder []) (fixture.decoder []) (fixture.decoder [])
              (fixture.decoder "") (fixture.decoder "")
              scenario.offlineClient fixture.w0 "BTC_USDT" 10
              scenario.addressRequest (fixture.depositRequest "BTC" 0 0)
              (fixture.withdrawalRequest "BTC" 0 0) (scenario.withdrawal 1%float)
              (scenario.balanceRequest 0))
    as (_ & _ & Htickers & _).
  destruct (sent (fixture.getTickers scenario.offlineClient "BTC_USDT" fixture.w0).2)
    as [| hreq [| ? ?]] eqn:Hsent; [by vm_compute in Hsent | | by vm_compute in Hsent].
  exact (Htickers hreq Hsent).
Defined.

Lemma payload_needs_a_good_answer_witness :
  (fixture.getTickers (fixture.client 200 "0") "BTC_USDT" fixture.w0).1 = Ok [] ∧
  ∃ hreq res,
    sent (fixture.getTickers (fixture.client 200 "0") "BTC_USDT" fixture.w0).2 = [hreq] ∧
    api.Client (requester (fixture.client 200 "0")) [] hreq = Ok res ∧
    http.StatusCode res < 400.
Proof.
  split; [reflexivity |].
  destruct (@payload_needs_a_good_answer fixture.table fixture.parser
              string string string string string string string string
              (fixture.decoder []) (fixture.decoder "") (fixture.decoder [])
              (fixture.decoder []) (fixture.decoder []) (fixture.decoder [])
              (fixture.decoder "") (fixture.decoder "")
              (fixture.client 200 "0") fixture.w0 "BTC_USDT" 10
              scenario.addressRequest (fixture.depositRequest "BTC" 0 0)
              (fixture.withdrawalRequest "BTC" 0 0) (scenario.withdrawal 1%float)
              (scenario.balanceRequest 0))
    as (_ & _ & Htickers & _).
  destruct (Htickers [] eq_refl) as (hreq & res & raw & resp & Hsent & Hres & _ & _ & Hlt & _).
  exists hreq, res. split_and!; [exact Hsent | exact Hres | exact Hlt].
Defined.

Lemma refused_signature_sends_nothing_witness :
  0 ≤ 0 ≤ 200 ∧
  fixture.getDepositHistory scenario.unsignedClient (fixture.depositRequest "BTC" 0 0)
    fixture.w0
  = (Error (Wrapf "failed to create signature: " scenario.refusal),
     {| idCalls := 1; clockReads := 1;
        signed := [signatureRequest scenario.unsignedClient fixture.w0
                     "private/get-deposit-history"
                     (getdeposithistory.buildParams (fixture.depositRequest "BTC" 0 0))];
        sent := [] |}).
Proof.
  split; [lia |].
  destruct (@refused_signature_sends_nothing fixture.table fixture.parser
              string string string string string
              (fixture.decoder []) (fixture.decoder []) (fixture.decoder [])
              (fixture.decoder "") (fixture.decoder "")
              scenario.unsignedClient fixture.w0
              scenario.addressRequest (fixture.depositRequest "BTC" 0 0)
              (fixture.withdrawalRequest "BTC" 0 0) (scenario.withdrawal 1%float)
              (scenario.balanceRequest 0))
    as (_ & Hdeposits & _).
  exact (Hdeposits ltac:(cbn; lia) scenario.refusal eq_refl).
Defined.

Lemma zero_fields_are_not_parameters_witness :
  createwithdrawal.buildParams (scenario.withdrawal 1%float) !! "amount"
  = Some (VFloat64 1%float) ∧
  createwithdrawal.buildParams (scenario.withdrawal 1%float) !! "client_wid" = None ∧
  PrimFloat.eqb 1%float 0%float = false.
Proof.
  split_and!; [reflexivity | reflexivity |].
  destruct (zero_fields_are_not_parameters scenario.addressRequest
              (fixture.depositRequest "BTC" 0 0) (fixture.withdrawalRequest "BTC" 0 0)
              (scenario.withdrawal 1%float) (scenario.balanceRequest 0))
    as (_ & _ & _ & Hwithdrawal & _).
  exact (Hwithdrawal "amount" (VFloat64 1%float) eq_refl).
Defined.


Lemma unchecked_endpoints_always_sign_witness :
  -5 ≠ 0 ∧
  userbalancehistory.buildParams (scenario.balanceRequest (-5)) !! "limit"
  = Some (VInt (-5)) ∧
  signed (@userbalancehistory.UserBalanceHistory fixture.table fixture.parser string
            (fixture.decoder "") (fixture.client 200 "0") (scenario.balanceRequest (-5))
            fixture.w0).2
  = [signatureRequest (fixture.client 200 "0") fixture.w0 "private/user-balance-history"
       (userbalancehistory.buildParams (scenario.balanceRequest (-5)))].
Proof.
  destruct (@unchecked_endpoints_always_sign fixture.table fixture.parser
              string string string
              (fixture.decoder []) (fixture.decoder "") (fixture.decoder "")
              (fixture.client 200 "0") fixture.w0
              scenario.addressRequest (scenario.withdrawal 1%float)
              (scenario.balanceRequest (-5)))
    as (_ & _ & Hbalance & Hlimit).
  cbv zeta in Hbalance. destruct Hbalance as (_ & _ & Hsigned).
  split_and!; [lia | exact (Hlimit ltac:(cbn; lia)) | exact Hsigned].
Defined.

Lemma unsupported_amount_is_signed_not_sent_witness :
  is_nan nan || is_infinity nan = true ∧
  sent (@createwithdrawal.CreateWithdrawal fixture.table fixture.parser string
          (fixture.decoder "") (fixture.client 200 "0") (scenario.withdrawal nan)
          fixture.w0).2 = [] ∧
  length (signed (@createwithdrawal.CreateWithdrawal fixture.table fixture.parser string
                    (fixture.decoder "") (fixture.client 200 "0") (scenario.withdrawal nan)
                    fixture.w0).2) = 1%nat ∧
  ∃ e, (@createwithdrawal.CreateWithdrawal fixture.table fixture.parser string
          (fixture.decoder "") (fixture.client 200 "0") (scenario.withdrawal nan)
          fixture.w0).1
       = Error (Wrapf "failed to execute post request: "
                  (Wrapf "failed to marshal request body: " e)).
Proof.
  destruct (@unsupported_amount_is_signed_not_sent fixture.table fixture.parser
              string (fixture.decoder "")
              (fixture.client 200 "0") fixture.w0 (scenario.withdrawal nan) "5f2b")
    as [_ Hbad].
  destruct (Hbad eq_refl) as (Hsigned & Hsent & err & Hout & Herr).
  destruct (Herr eq_refl) as [e ->].
  split_and!; [reflexivity | exact Hsent | by rewrite Hsigned | by exists e].
Defined.
